(** * webp-equiv: the quality search of [webpRecompress]

    A shallow embedding of the driver [webpRecompress] (the main module of
    the package) and of [lib/encode-webp.mjs], with the properties of the
    search that the design document states.

    Conventions of the embedding.
    - JavaScript numbers holding a quality, a byte size or an attempt
      counter are integers ([Z], [nat] for the counter); a similarity score
      and a threshold are rationals ([Q]), compared with [Qle_bool].  NaN and
      the infinities are outside the model.
    - The trials table (a JavaScript object keyed by quality) is a
      [gmap Z TrialRecord.t].
    - Asynchronous collaborators (fs.stat, child_process.execFile, identify,
      convert, trial, cleanUp) are functions on an abstract world [W]; every
      call is also appended to a log of events, in program order.
    - [lib/utils.mjs] is outside this development: its exports are the fields
      of the record [Utils], and the outcome of its promise wrapper [to] is
      the type [To].
    - console.log is not modelled; [quiet], [verbose] and [prior] are kept
      where they reach a collaborator or the control flow. *)

From Stdlib Require Import ZArith QArith Qround Qabs String List Bool Lia Lqa.
From stdpp Require Import base option gmap.

Import ListNotations.
Local Open Scope string_scope.
Local Open Scope list_scope.
Local Open Scope Z_scope.

(** ** JavaScript values that reach the driver *)

Module Js.

(** What a destructured [data] can hold when a wrapped promise failed. *)
Inductive value : Type :=
| Undefined
| Null
| Str (s : string)
| ErrorObj (message : string).

(** [null] and [undefined]: reading a property of these throws. *)
Definition nullish (v : value) : bool :=
  match v with
  | Undefined | Null => true
  | Str _ | ErrorObj _ => false
  end.

Inductive exn : Type :=
| TypeError (what : string).

(** Result of an expression that may throw. *)
Inductive completion (A : Type) : Type :=
| Normal (a : A)
| Abrupt (e : exn).
Arguments Normal {A} a.
Arguments Abrupt {A} e.

(** Numbers as the relational operators see them: a rational, or NaN. *)
Inductive number : Type :=
| Num (q : Q)
| NaN.

(** [a <= b]: false as soon as an operand is NaN. *)
Definition le (a b : number) : bool :=
  match a, b with
  | Num x, Num y => Qle_bool x y
  | _, _ => false
  end.

(** [a > b]: false as soon as an operand is NaN; on two numbers it is the
    negation of [a <= b]. *)
Definition gt (a b : number) : bool :=
  match a, b with
  | Num x, Num y => negb (Qle_bool x y)
  | _, _ => false
  end.

End Js.

(** Outcome of [await to(promise)], destructured as [[state, data]]:
    [Ok a] is [state = true] with the promise's value, [Failed d] is
    [state = false] with whatever [to] puts in second place. *)
Inductive To (A : Type) : Type :=
| Ok (a : A)
| Failed (d : Js.value).
Arguments Ok {A} a.
Arguments Failed {A} d.

Definition state {A} (r : To A) : bool :=
  match r with Ok _ => true | Failed _ => false end.

(** fs.Stats, of which only [size] is read. *)
Record Stats : Type := mkStats { stat_size : Z }.

(** [data.size] for the [data] of a wrapped fs.stat: the byte size of a
    Stats object, [undefined] ([None]) on a non-nullish failure datum, a
    TypeError on [null] or [undefined]. *)
Definition data_size (r : To Stats) : Js.completion (option Z) :=
  match r with
  | Ok s => Js.Normal (Some (stat_size s))
  | Failed d =>
      if Js.nullish d
      then Js.Abrupt (Js.TypeError "Cannot read properties of undefined (reading 'size')")
      else Js.Normal None
  end.

(** ** The trials table *)

Module TrialRecord.
Record t : Type := mk { score : Q; size : Z; attempts : nat }.
Definition bump (r : t) : t :=
  {| score := score r; size := size r; attempts := S (attempts r) |}.
End TrialRecord.

Abbreviation Trials := (gmap Z TrialRecord.t).

(** The three working files derived from the input path. *)
Record Files : Type := mkFiles { refPng : string; outputWebp : string; webpPng : string }.

(** What [trial] resolves to, [[state, data, score, size]]. *)
Inductive TrialOut : Type :=
| TrialOk (score : Q) (size : Z)
| TrialFail (data : Js.value).

(** ** Events and results *)

(** An element of an argument vector handed to execFile. *)
Inductive Arg : Type :=
| AStr (s : string)
| ANum (n : Z).

(** The two places [trial] is called from: the probe inside the loop and
    the confirming run once a candidate is chosen. *)
Inductive TrialSite : Type := Probe | Confirm.

Inductive Event : Type :=
| EvStat (path : string)
| EvExecFile (argv : list Arg)
| EvIdentify (input : string)
| EvConvert (input dest : string)
| EvTrial (site : TrialSite) (quality : option Z) (quiet : bool) (out : TrialOut)
| EvCleanUp (files : Files).

(** The second component of the returned pair. *)
Inductive Msg : Type :=
| Lit (s : string)
| PngEncoded (inputSize : Z) (outputSize : option Z)
| RefFailed (data : Js.value)
| TrialFailed (data : Js.value)
| CandidateFound (quality : option Z) (inputSize : Z) (size : option Z).

Inductive Outcome : Type :=
| Return (ok : bool) (msg : Msg)
| Throw (e : Js.exn).

(** ** Parameters: lib/utils.mjs and the collaborators *)

Record Regex : Type := mkRegex {
  test : string -> bool;
  replace : string -> string -> string   (* input.replace(re, by) *)
}.

Record Utils : Type := mkUtils {
  jpegRegex : Regex;
  pngRegex : Regex;
  roundTo : Q -> Q;                       (* roundTo(n), default precision *)
  getQualityInterval : Q -> Q -> Z -> Z;
  clampQuality : Z -> Z;
  (* [None] stands for [undefined] in the returned pair *)
  getFinalQuality : Q -> Trials -> option Z * option Z
}.

Record Collaborators (W : Type) : Type := mkCollaborators {
  resolve : string -> string;             (* path.resolve(process.cwd(), p) *)
  statAsync : string -> W -> To Stats * W;
  execFileAsync : list Arg -> W -> To unit * W;
  identify : string -> W -> To Z * W;
  convert : string -> string -> W -> To unit * W;
  (* trial(input, inputSize, files, quality, quiet, trials): the table is
     passed by reference, so the call also yields the table as it is
     afterwards; the quality is [None] when the caller hands [undefined].
     The promise resolves to the 4-tuple; a rejection is outside the model,
     and so is a collaborator that keeps the reference after the call. *)
  trial : string -> Z -> Files -> option Z -> bool -> Trials -> W -> TrialOut * Trials * W;
  cleanUp : Files -> W -> W
}.
Arguments resolve {W} _ _.
Arguments statAsync {W} _ _ _.
Arguments execFileAsync {W} _ _ _.
Arguments identify {W} _ _ _.
Arguments convert {W} _ _ _ _.
Arguments trial {W} _ _ _ _ _ _ _ _.
Arguments cleanUp {W} _ _ _.

(** The world together with the log of collaborator calls. *)
Record St (W : Type) : Type := mkSt { world : W; log : list Event }.
Arguments mkSt {W} _ _.
Arguments world {W} _.
Arguments log {W} _.

Section Driver.

Context {W : Type}.
Variable U : Utils.
Variable C : Collaborators W.

Definition emit (e : Event) (w : W) (st : St W) : St W :=
  mkSt w (log st ++ [e]).

(** [await to(statAsync(path))] *)
Definition stat (path : string) (st : St W) : To Stats * St W :=
  let '(r, w) := statAsync C path (world st) in
  (r, emit (EvStat path) w st).

(** lib/encode-webp.mjs: the argument vector given to cwebp. *)
Definition encodeWebp_argv (inputFile outputFile : string) (quality : Z) : list Arg :=
  [AStr "-q"; ANum quality; AStr "-mt"; AStr inputFile; AStr "-o"; AStr outputFile].

(** [await to(encodeWebp(inputFile, outputFile, quality))] *)
Definition encodeWebp (inputFile outputFile : string) (quality : Z) (st : St W)
  : To unit * St W :=
  let argv := encodeWebp_argv inputFile outputFile quality in
  let '(r, w) := execFileAsync C argv (world st) in
  (r, emit (EvExecFile argv) w st).

Definition size_failure_png : Msg := Lit "Couldn't get the size of PNG input.".
Definition encode_failure_png : Msg := Lit "Couldn't encode lossless WebP from PNG input.".

(** The branch taken when [pngRegex.test(input)] holds. *)
Definition pngPath (input : string) (st : St W) : Outcome * St W :=
  let '(r1, st1) := stat input st in
  match r1 with
  | Failed _ => (Return false size_failure_png, st1)
  | Ok s1 =>
      let inputSize := stat_size s1 in
      let outputWebp := resolve C (replace (pngRegex U) input ".webp") in
      let '(r2, st2) := encodeWebp input outputWebp 100 st1 in
      match r2 with
      | Failed _ => (Return false encode_failure_png, st2)
      | Ok _ =>
          let '(r3, st3) := stat outputWebp st2 in
          (* const outputSize = data.size;  comes before  if (!state) *)
          match data_size r3 with
          | Js.Abrupt e => (Throw e, st3)
          | Js.Normal outputSize =>
              match r3 with
              | Failed _ => (Return false size_failure_png, st3)
              | Ok _ => (Return true (PngEncoded inputSize outputSize), st3)
              end
          end
      end
  end.

(** *** The search (JPEG input) *)

Definition format_failure : Msg := Lit "Input must be a JPEG or PNG image.".
Definition threshold_failure : Msg := Lit "Threshold must be between 0 and 1.".
Definition size_failure_jpeg : Msg := Lit "Couldn't get the size of JPEG input.".

(** [await trial(input, inputSize, files, quality, quiet, trials)] *)
Definition run_trial (site : TrialSite) (input : string) (inputSize : Z) (files : Files)
    (quality : option Z) (quiet : bool) (trials : Trials) (st : St W)
  : TrialOut * Trials * St W :=
  let '(out, trials', w) := trial C input inputSize files quality quiet trials (world st) in
  (out, trials', emit (EvTrial site quality quiet out) w st).

(** "Record the attempt": the entry is created only when the key is
    absent, then its counter is incremented. *)
Definition record_attempt (quality : Z) (score : Q) (size : Z) (trials : Trials) : Trials :=
  let trials1 :=
    match trials !! quality with
    | Some _ => trials
    | None => <[quality := TrialRecord.mk score size 0]> trials
    end in
  alter TrialRecord.bump quality trials1.

Definition attempts_at (quality : Z) (trials : Trials) : nat :=
  match trials !! quality with
  | Some r => TrialRecord.attempts r
  | None => 0%nat
  end.

(** How one pass through the body of the do-while ends. *)
Inductive Step : Type :=
| Again (quality : Z) (score : Q) (size : Z) (trials : Trials) (st : St W)
    (* [continue], or the end of the body: the condition is tested next *)
| Leave (quality : Z) (score : Q) (size : Z) (trials : Trials) (st : St W)
    (* [break] *)
| Bail (msg : Msg) (trials : Trials) (st : St W).
    (* [return [false, ...]] from inside the loop *)

Definition body (input : string) (inputSize : Z) (files : Files) (threshold : Q)
    (quiet : bool) (quality : Z) (trials : Trials) (st : St W) : Step :=
  let '(out, trials, st) := run_trial Probe input inputSize files (Some quality) quiet trials st in
  match out with
  | TrialFail data => Bail (TrialFailed data) trials st
  | TrialOk score size =>
      let trials := record_attempt quality score size trials in
      if (3 <? attempts_at quality trials)%nat then
        Leave (if inputSize <=? size then quality - 2 else quality + 2) score size trials st
      else
        let interval := getQualityInterval U score threshold quality in
        if inputSize <=? size then
          Again (quality - interval) score size trials st
        else if Qle_bool score threshold then
          Leave quality score size trials st
        else
          Again (clampQuality U (quality + interval)) score size trials st
  end.

(** [score > threshold || size >= inputSize].  The scores and the
    threshold of this development are rationals, so the comparison is
    that of two numbers; a score or a threshold that is NaN, for which
    [score > threshold] and [score <= threshold] are both false, is
    outside it. *)
Definition while_cond (threshold : Q) (inputSize : Z) (score : Q) (size : Z) : bool :=
  Js.gt (Js.Num score) (Js.Num threshold) || (inputSize <=? size).

Inductive LoopExit : Type :=
| Exited (quality : Z) (score : Q) (size : Z) (trials : Trials) (st : St W)
| Aborted (msg : Msg) (trials : Trials) (st : St W).

Fixpoint loop (fuel : nat) (input : string) (inputSize : Z) (files : Files) (threshold : Q)
    (quiet : bool) (quality : Z) (trials : Trials) (st : St W) : option LoopExit :=
  match fuel with
  | O => None
  | S fuel' =>
      match body input inputSize files threshold quiet quality trials st with
      | Bail msg trials st => Some (Aborted msg trials st)
      | Leave quality score size trials st => Some (Exited quality score size trials st)
      | Again quality score size trials st =>
          if while_cond threshold inputSize score size
          then loop fuel' input inputSize files threshold quiet quality trials st
          else Some (Exited quality score size trials st)
      end
  end.

(** [score <= threshold && size < inputSize] *)
Definition passes (threshold : Q) (inputSize : Z) (score : Q) (size : Z) : bool :=
  Qle_bool score threshold && (size <? inputSize).

(** The branch after the loop that reports a candidate. *)
Definition finish (input : string) (inputSize : Z) (files : Files) (score : Q)
    (trials : Trials) (st : St W) : Outcome * Trials * St W :=
  let '(quality, size) := getFinalQuality U score trials in
  (* await trial(input, inputSize, files, quality, true, {}); result unused *)
  let '(_, _, st) := run_trial Confirm input inputSize files quality true ∅ st in
  let st := emit (EvCleanUp files) (cleanUp C files (world st)) st in
  (Return true (CandidateFound quality inputSize size), trials, st).

(** One invocation, up to the point where it either returns or calls
    itself again. *)
Inductive Attempt : Type :=
| Done (o : Outcome) (trials : Trials) (st : St W)
| Retry (threshold : Q) (start : Z) (trials : Trials) (st : St W).

Definition working_files (input : string) : Files :=
  {| refPng := resolve C (replace (jpegRegex U) input ".png");
     outputWebp := resolve C (replace (jpegRegex U) input ".webp");
     webpPng := resolve C (replace (jpegRegex U) input "-webp.png") |}.

Definition attempt (fuel : nat) (input : string) (threshold thresholdMultiplier : Q)
    (start : Z) (quiet verbose prior : bool) (priorTrials : option Trials) (st : St W)
  : option Attempt :=
  let table := default ∅ priorTrials in
  if test (pngRegex U) input then
    let '(o, st) := pngPath input st in Some (Done o table st)
  else if negb (test (jpegRegex U) input) && negb (test (pngRegex U) input) then
    Some (Done (Return false format_failure) table st)
  else
    let start := if (100 <? start) || (start <? 0) then clampQuality U start else start in
    if negb (Qle_bool threshold 1) || negb (Qle_bool 0 threshold) then
      Some (Done (Return false threshold_failure) table st)
    else
      let quality := start in
      let trials := table in
      let '(r, st) := stat input st in
      match r with
      | Failed _ => Some (Done (Return false size_failure_jpeg) trials st)
      | Ok s =>
          let inputSize := stat_size s in
          let files := working_files input in
          let '(quality, st) :=
            if prior then (quality, st)
            else
              let '(g, w) := identify C input (world st) in
              (match g with Ok q => q | Failed _ => start end,
               emit (EvIdentify input) w st) in
          let '(r, w) := convert C input (refPng files) (world st) in
          let st := emit (EvConvert input (refPng files)) w st in
          match r with
          | Failed data => Some (Done (Return false (RefFailed data)) trials st)
          | Ok _ =>
              match loop fuel input inputSize files threshold quiet quality trials st with
              | None => None
              | Some (Aborted msg trials st) => Some (Done (Return false msg) trials st)
              | Some (Exited quality score size trials st) =>
                  if passes threshold inputSize score size then
                    let '(o, trials, st) := finish input inputSize files score trials st in
                    Some (Done o trials st)
                  else
                    Some (Retry (roundTo U (threshold * thresholdMultiplier)%Q)
                                quality trials st)
              end
          end
      end.

(** [webpRecompress]: [fuel] bounds the iterations of each loop and the
    depth of the self-calls; [None] is "not finished within the bound". *)
Fixpoint webpRecompress (fuel : nat) (input : string) (threshold thresholdMultiplier : Q)
    (start : Z) (quiet verbose prior : bool) (priorTrials : option Trials) (st : St W)
  : option (Outcome * Trials * St W) :=
  match attempt fuel input threshold thresholdMultiplier start quiet verbose prior priorTrials st with
  | None => None
  | Some (Done o trials st) => Some (o, trials, st)
  | Some (Retry threshold' start' trials st) =>
      match fuel with
      | O => None
      | S fuel' =>
          webpRecompress fuel' input threshold' thresholdMultiplier start' quiet verbose
                         true (Some trials) st
      end
  end.

End Driver.

(** ** lib/utils.mjs as the design document describes it *)

Module Spec.

(** Modelled from the spec: [clampQuality] of lib/utils.mjs, "maps any
    real number to the closed integer range [0,100]; values below 0 floor
    to 0, above 100 ceil to 100". *)
Definition clampQuality (q : Z) : Z := Z.max 0 (Z.min 100 q).

(** Modelled from the spec: [roundTo] of lib/utils.mjs, "rounded to a
    fixed decimal precision": the nearest multiple of [10^-precision],
    halves upwards. *)
Definition roundTo (n : Q) (precision : nat) : Q :=
  let scale := (10 ^ Z.of_nat precision)%Z in
  (inject_Z (Qfloor (n * inject_Z scale + (1 # 2))) / inject_Z scale)%Q.

(** Modelled from the spec: [getQualityInterval] of lib/utils.mjs, in
    the shape the document suggests, "proportional to |score - threshold|
    scaled by a constant, with a floor of 1"; [scale] is that constant. *)
Definition getQualityInterval (scale : Z) (score threshold : Q) (quality : Z) : Z :=
  Z.max 1 (Qfloor (Qabs (score - threshold) * inject_Z scale)).

(** Modelled from the spec: the order of [getFinalQuality], "smallest
    recorded size (ties broken by lower quality value)"; [c] is preferred
    to [best]. *)
Definition better (c best : Z * TrialRecord.t) : bool :=
  (TrialRecord.size c.2 <? TrialRecord.size best.2)
  || ((TrialRecord.size c.2 =? TrialRecord.size best.2) && (c.1 <? best.1)).

(** Modelled from the spec: one step of the scan of [getFinalQuality]
    over the table; [c] counts when its recorded score is at most
    [bound]. *)
Definition pick (bound : Q) (c : Z * TrialRecord.t) (best : option (Z * TrialRecord.t))
  : option (Z * TrialRecord.t) :=
  if Qle_bool (TrialRecord.score c.2) bound then
    match best with
    | None => Some c
    | Some b => if better c b then Some c else best
    end
  else best.

(** Modelled from the spec: [getFinalQuality] of lib/utils.mjs, "choose,
    among all qualities whose recorded score satisfies the threshold, the
    one with the smallest recorded size (ties broken by lower quality
    value)"; both answers are [undefined] when no entry satisfies it.  The
    call hands over the score just computed and the table; the threshold
    that the recorded scores are held against is a setting of the
    utilities, [threshold] here, and the score handed over plays no part
    in the choice. *)
Definition getFinalQuality (threshold : Q) (score : Q) (trials : Trials)
  : option Z * option Z :=
  match foldr (pick threshold) None (map_to_list trials) with
  | Some (q, r) => (Some q, Some (TrialRecord.size r))
  | None => (None, None)
  end.

(** The exports as modelled above; the two patterns, the default
    precision of [roundTo], the constant of [getQualityInterval] and the
    threshold of [getFinalQuality] are left open. *)
Definition utils (jpeg png : Regex) (precision : nat) (scale : Z) (threshold : Q) : Utils :=
  mkUtils jpeg png (fun n => roundTo n precision) (getQualityInterval scale)
          clampQuality (getFinalQuality threshold).

End Spec.

(** ** Scripted collaborators, for running the driver *)

Module Script.

(** The world is the number of [trial] calls made so far; the answer of
    the n-th call may depend on n, the quality and the table it is
    handed. *)
Record t : Type := mk {
  on_stat : string -> To Stats;
  on_exec : list Arg -> To unit;
  on_identify : To Z;
  on_convert : To unit;
  on_trial : nat -> option Z -> Trials -> TrialOut * Trials
}.

Definition collaborators (s : t) : Collaborators nat :=
  {| resolve := fun p => p;
     statAsync := fun p w => (on_stat s p, w);
     execFileAsync := fun argv w => (on_exec s argv, w);
     identify := fun _ w => (on_identify s, w);
     convert := fun _ _ w => (on_convert s, w);
     trial := fun _ _ _ q _ trials w =>
                let '(out, trials') := on_trial s w q trials in (out, trials', S w);
     cleanUp := fun _ w => w |}.

Definition start : St nat := mkSt 0%nat [].

End Script.

(** ** Notions used in the statements *)

(** cwebp encodes lossy unless its argument vector carries one of the
    switches that select the lossless coder. *)
Definition selects_lossless (argv : list Arg) : bool :=
  existsb (fun a =>
             match a with
             | AStr s => String.eqb s "-lossless" || String.eqb s "-near_lossless"
                         || String.eqb s "-z"
             | ANum _ => false
             end) argv.

(** The observations of the search at one quality, oldest first: the
    (score, size) of every probe at [q] that succeeded. *)
Definition observation (q : Z) (e : Event) : list (Q * Z) :=
  match e with
  | EvTrial Probe (Some q') _ (TrialOk score size) =>
      if decide (q' = q) then [(score, size)] else []
  | _ => []
  end.

Definition probes_at (q : Z) (log : list Event) : list (Q * Z) :=
  flat_map (observation q) log.

(** The entry that a log of probes accounts for. *)
Definition recorded (q : Z) (log : list Event) : option TrialRecord.t :=
  match probes_at q log with
  | [] => None
  | (score, size) :: rest => Some (TrialRecord.mk score size (S (length rest)))
  end.

(** The table is exactly what the probes so far account for. *)
Definition accounts_for (log : list Event) (trials : Trials) : Prop :=
  forall q, trials !! q = recorded q log.

(** A stretch of the log with no successful probe in it. *)
Definition silent (l : list Event) : Prop := forall q, probes_at q l = [].

(** The table and the log agree where a pass through the body, the loop
    or an invocation ends. *)
Definition step_accounts {W} (s : @Step W) : Prop :=
  match s with
  | Again _ _ _ trials st | Leave _ _ _ trials st | Bail _ trials st =>
      accounts_for (log st) trials
  end.

Definition exit_accounts {W} (e : @LoopExit W) : Prop :=
  match e with
  | Exited _ _ _ trials st | Aborted _ trials st => accounts_for (log st) trials
  end.

Definition attempt_accounts {W} (a : @Attempt W) : Prop :=
  match a with
  | Done _ trials st | Retry _ _ trials st => accounts_for (log st) trials
  end.

(** What an invocation makes of the way its loop ended. *)
Definition conclude {W} (U : Utils) (C : Collaborators W) (input : string) (inputSize : Z)
    (threshold thresholdMultiplier : Q) (e : @LoopExit W) : @Attempt W :=
  match e with
  | Aborted msg trials st => Done (Return false msg) trials st
  | Exited quality score size trials st =>
      if passes threshold inputSize score size then
        let '(o, trials, st) :=
          finish U C input inputSize (working_files U C input) score trials st in
        Done o trials st
      else Retry (roundTo U (threshold * thresholdMultiplier)%Q) quality trials st
  end.

(** The trial collaborator leaves the table it is handed as it was. *)
Definition keeps_table {W} (C : Collaborators W) : Prop :=
  forall input inputSize files quality quiet trials w,
    (trial C input inputSize files quality quiet trials w).1.2 = trials.

(** The trial collaborator is repeatable: whenever a probe at [q]
    succeeds it reports [f q]. *)
Definition repeatable {W} (C : Collaborators W) (f : Z -> Q * Z) : Prop :=
  forall input inputSize files q quiet trials w score size,
    (trial C input inputSize files (Some q) quiet trials w).1.1 = TrialOk score size ->
    (score, size) = f q.

(** Every entry of the table holds what [f] reports at its quality. *)
Definition consistent (f : Z -> Q * Z) (trials : Trials) : Prop :=
  forall q r, trials !! q = Some r -> (TrialRecord.score r, TrialRecord.size r) = f q.

(** The contract of [getFinalQuality] at a threshold, in the words of
    the design document: as soon as some entry has a recorded score that
    satisfies the threshold, the answer is such an entry, and none of them
    has a smaller recorded size; whatever the score handed in. *)
Definition selects_smallest_passing (U : Utils) (threshold : Q) : Prop :=
  forall (score : Q) (trials : Trials) q r,
    trials !! q = Some r ->
    (TrialRecord.score r <= threshold)%Q ->
    exists q' r',
      getFinalQuality U score trials = (Some q', Some (TrialRecord.size r'))
      /\ trials !! q' = Some r'
      /\ (TrialRecord.score r' <= threshold)%Q
      /\ TrialRecord.size r' <= TrialRecord.size r.

(** The table has an entry holding the score and size just observed. *)
Definition holds_current (trials : Trials) (score : Q) (size : Z) : Prop :=
  exists q r, trials !! q = Some r /\ TrialRecord.score r = score /\ TrialRecord.size r = size.

Definition step_consistent {W} (f : Z -> Q * Z) (s : @Step W) : Prop :=
  match s with
  | Again _ score size trials _ | Leave _ score size trials _ =>
      consistent f trials /\ holds_current trials score size
  | Bail _ trials _ => consistent f trials
  end.

Definition exit_consistent {W} (f : Z -> Q * Z) (e : @LoopExit W) : Prop :=
  match e with
  | Exited _ score size trials _ => consistent f trials /\ holds_current trials score size
  | Aborted _ trials _ => consistent f trials
  end.

(** A reported candidate has an entry, and that entry passes. *)
Definition candidate_passes (threshold : Q) (o : Outcome) (trials : Trials) : Prop :=
  forall oq inputSize osz,
    o = Return true (CandidateFound oq inputSize osz) ->
    exists q r,
      oq = Some q /\ osz = Some (TrialRecord.size r) /\ trials !! q = Some r
      /\ (TrialRecord.score r <= threshold)%Q /\ TrialRecord.size r < inputSize.

Definition attempt_consistent {W} (U : Utils) (f : Z -> Q * Z)
    (threshold thresholdMultiplier : Q) (a : @Attempt W) : Prop :=
  match a with
  | Done o trials _ =>
      selects_smallest_passing U threshold -> candidate_passes threshold o trials
  | Retry threshold' _ trials _ =>
      consistent f trials /\ threshold' = roundTo U (threshold * thresholdMultiplier)%Q
  end.

(** The threshold after [k] relaxations. *)
Fixpoint relaxed (U : Utils) (thresholdMultiplier : Q) (k : nat) (threshold : Q) : Q :=
  match k with
  | O => threshold
  | S k' => relaxed U thresholdMultiplier k' (roundTo U (threshold * thresholdMultiplier)%Q)
  end.

(** The quality that the decision ladder moves to when it loops. *)
Definition next_quality (U : Utils) (threshold : Q) (inputSize : Z)
    (quality : Z) (score : Q) (size : Z) : Z :=
  let interval := getQualityInterval U score threshold quality in
  if inputSize <=? size then quality - interval else clampQuality U (quality + interval).

(** ** Notions for the further properties *)

(** The start value as it is after the range check on entry:
    [if (start > 100 || start < 0) start = clampQuality(start)]. *)
Definition clamp_start (U : Utils) (start : Z) : Z :=
  if (100 <? start) || (start <? 0) then clampQuality U start else start.

(** The quality guess of a fresh call: [identify] is asked unless [prior]
    is set, and its answer replaces the quality; when it fails the quality
    is the start value. *)
Definition guess_quality {W} (C : Collaborators W) (input : string) (start : Z)
    (prior : bool) (st : St W) : Z * St W :=
  if prior then (start, st)
  else
    let '(g, w) := identify C input (world st) in
    (match g with Ok q => q | Failed _ => start end,
     mkSt w (log st ++ [EvIdentify input])).

Definition is_cleanup (e : Event) : bool :=
  match e with EvCleanUp _ => true | _ => false end.

Definition is_identify (e : Event) : bool :=
  match e with EvIdentify _ => true | _ => false end.

Definition is_exec (e : Event) : bool :=
  match e with EvExecFile _ => true | _ => false end.

Definition is_trial (e : Event) : bool :=
  match e with EvTrial _ _ _ _ => true | _ => false end.

Definition is_probe (e : Event) : bool :=
  match e with EvTrial Probe _ _ _ => true | _ => false end.

(** A call before the trials: a probe of a file, a run of cwebp, the
    quality guess or the conversion. *)
Definition is_setup (e : Event) : bool :=
  match e with
  | EvStat _ | EvExecFile _ | EvIdentify _ | EvConvert _ _ => true
  | EvTrial _ _ _ _ | EvCleanUp _ => false
  end.

(** A probe at a quality satisfying [P]. *)
Definition probe_within (P : Z -> Prop) (e : Event) : Prop :=
  match e with
  | EvTrial Probe (Some q) _ _ => P q
  | _ => True
  end.

Definition exit_st {W} (e : @LoopExit W) : St W :=
  match e with Exited _ _ _ _ st | Aborted _ _ st => st end.

Definition exit_trials {W} (e : @LoopExit W) : Trials :=
  match e with Exited _ _ _ trials _ | Aborted _ trials _ => trials end.

Definition attempt_st {W} (a : @Attempt W) : St W :=
  match a with Done _ _ st | Retry _ _ _ st => st end.

Definition attempt_trials {W} (a : @Attempt W) : Trials :=
  match a with Done _ trials _ | Retry _ _ trials _ => trials end.

(** The calls that follow the probes of an invocation: the confirming
    trial and the cleanup when it reports a candidate, nothing otherwise. *)
Definition closing {W} (U : Utils) (C : Collaborators W) (input : string)
    (a : @Attempt W) (post : list Event) : Prop :=
  match a with
  | Done (Return true (CandidateFound q _ _)) _ _ =>
      exists out, post = [EvTrial Confirm q true out; EvCleanUp (working_files U C input)]
  | _ => post = []
  end.

(** The same for a whole call, by its outcome. *)
Definition closing_of {W} (U : Utils) (C : Collaborators W) (input : string)
    (o : Outcome) (post : list Event) : Prop :=
  match o with
  | Return true (CandidateFound q _ _) =>
      exists out, post = [EvTrial Confirm q true out; EvCleanUp (working_files U C input)]
  | _ => post = []
  end.

(** [trials'] keeps every entry of [trials], with its score and size, and
    with at least as many attempts. *)
Definition extends (trials trials' : Trials) : Prop :=
  forall q r,
    trials !! q = Some r ->
    exists r',
      trials' !! q = Some r'
      /\ TrialRecord.score r' = TrialRecord.score r
      /\ TrialRecord.size r' = TrialRecord.size r
      /\ (TrialRecord.attempts r <= TrialRecord.attempts r')%nat.

Definition step_st {W} (s : @Step W) : St W :=
  match s with Again _ _ _ _ st | Leave _ _ _ _ st | Bail _ _ st => st end.

Definition step_trials {W} (s : @Step W) : Trials :=
  match s with Again _ _ _ trials _ | Leave _ _ _ trials _ | Bail _ trials _ => trials end.

(** The calls an invocation makes before its loop. *)
Definition preamble {W} (U : Utils) (C : Collaborators W) (input : string) (prior : bool)
  : list Event :=
  EvStat input :: (if prior then [] else [EvIdentify input])
  ++ [EvConvert input (refPng (working_files U C input))].

Definition is_convert (e : Event) : bool :=
  match e with EvConvert _ _ => true | _ => false end.

(** The retries of a search, read off its calls: every invocation that
    gets as far as its loop converts the input once, so a search that
    reports a candidate or is still running has made one retry less than
    it has made conversions. *)
Definition retries (calls : list Event) : nat :=
  pred (length (List.filter is_convert calls)).

(** The successful probes that one loop can make at a quality whose entry
    counts [n] attempts when the loop starts: up to the fourth attempt, and
    one in any case. *)
Definition budget (n : nat) : nat := Nat.max 1 (4 - n).

(** The trial collaborator answers every probe at [q] in the same way,
    with the score and size [f q]. *)
Definition steady {W} (C : Collaborators W) (input : string) (inputSize : Z) (files : Files)
    (f : Z -> Q * Z) (q : Z) : Prop :=
  forall quiet trials w,
    (trial C input inputSize files (Some q) quiet trials w).1.1 = TrialOk (f q).1 (f q).2.

(** The call that such a probe is. *)
Definition probe_of (f : Z -> Q * Z) (quiet : bool) (q : Z) : Event :=
  EvTrial Probe (Some q) quiet (TrialOk (f q).1 (f q).2).

(** The calls of a loop that goes [r] times round the qualities [qs] and
    then probes the first of them once more. *)
Definition oscillation (f : Z -> Q * Z) (quiet : bool) (q0 : Z) (rest : list Z) (r : nat)
  : list Event :=
  concat (replicate r (map (probe_of f quiet) (q0 :: rest))) ++ [probe_of f quiet q0].

(** ** Sample runs *)

Module Sample.

(** Sample patterns: [jpegRegex] and [pngRegex] are known by name and
    use only; the runs take them to match a file name by its extension and
    to replace that extension. *)
Fixpoint ends_with (suffix s : string) : bool :=
  (String.eqb s suffix)
  || match s with
     | EmptyString => false
     | String _ rest => ends_with suffix rest
     end.

Fixpoint swap_suffix (suffix by_ s : string) : string :=
  if String.eqb s suffix then by_
  else match s with
       | EmptyString => EmptyString
       | String c rest => String c (swap_suffix suffix by_ rest)
       end.

Definition extension (exts : list string) : Regex :=
  {| test := fun s => existsb (fun e => ends_with e s) exts;
     replace := fun s by_ =>
       match filter (fun e => ends_with e s) exts with
       | e :: _ => swap_suffix e by_ s
       | [] => s
       end |}.

Definition jpegRegex : Regex := extension [".jpg"; ".jpeg"].
Definition pngRegex : Regex := extension [".png"].

(** Sample constants: three decimals for [roundTo], 100 for the scale
    of [getQualityInterval], and 0.02 for the threshold of
    [getFinalQuality], the threshold of the sample searches that report a
    candidate without a retry. *)
Definition utils : Utils := Spec.utils jpegRegex pngRegex 3 100 (2 # 100).

(** The same with the threshold 0.03, where the threshold 0.02 stands
    after one relaxation by the factor 1.5. *)
Definition utils_relaxed : Utils := Spec.utils jpegRegex pngRegex 3 100 (30 # 1000).

Definition stats_of (sizes : list (string * Z)) (p : string) : To Stats :=
  match filter (fun e => String.eqb e.1 p) sizes with
  | e :: _ => Ok (mkStats e.2)
  | [] => Failed (Js.ErrorObj "ENOENT: no such file or directory")
  end.

Definition untouched (f : nat -> option Z -> TrialOut) (n : nat) (q : option Z)
    (trials : Trials) : TrialOut * Trials :=
  (f n q, trials).

(** A PNG of 5000 bytes whose encoding has 3000 bytes. *)
Definition png_ok : Script.t :=
  Script.mk (stats_of [("photo.png", 5000); ("photo.webp", 3000)])
            (fun _ => Ok tt) (Ok 75) (Ok tt)
            (untouched (fun _ _ => TrialFail Js.Undefined)).

(** The same, but the encoded file cannot be probed afterwards. *)
Definition png_output_unreadable : Script.t :=
  Script.mk (stats_of [("photo.png", 5000)])
            (fun _ => Ok tt) (Ok 75) (Ok tt)
            (untouched (fun _ _ => TrialFail Js.Undefined)).

(** A JPEG of 1000 bytes whose WebP is always larger; the encoder
    refuses a negative quality.  The quality guess fails. *)
Definition jpeg_always_larger : Script.t :=
  Script.mk (stats_of [("photo.jpg", 1000)])
            (fun _ => Ok tt) (Failed (Js.ErrorObj "identify failed")) (Ok tt)
            (untouched (fun _ q =>
                          match q with
                          | Some q => if q <? 0
                                      then TrialFail (Js.Str "cwebp: quality out of range")
                                      else TrialOk (1 # 2) 2000
                          | None => TrialFail Js.Undefined
                          end)).

(** A JPEG of 100000 bytes guessed at quality 80; the probe at 80 gives
    score 0.01 and 60000 bytes, every later trial fails. *)
Definition jpeg_confirm_fails : Script.t :=
  Script.mk (stats_of [("photo.jpg", 100000)])
            (fun _ => Ok tt) (Ok 80) (Ok tt)
            (untouched (fun n _ =>
                          match n with
                          | O => TrialOk (1 # 100) 60000
                          | _ => TrialFail (Js.Str "Couldn't encode WebP.")
                          end)).

(** A JPEG of 1000 bytes guessed at quality 100 whose trials at one
    quality do not repeat: 0.5 and 50 bytes first, 0.25 and 60 bytes
    from then on. *)
Definition jpeg_drifting : Script.t :=
  Script.mk (stats_of [("photo.jpg", 1000)])
            (fun _ => Ok tt) (Ok 100) (Ok tt)
            (untouched (fun n _ =>
                          match n with
                          | O => TrialOk (1 # 2) 50
                          | _ => TrialOk (1 # 4) 60
                          end)).

(** A JPEG of 100000 bytes guessed at quality 100: too large on the
    first probe at 100, poor at 99, fine on the second probe at 100. *)
Definition jpeg_second_look : Script.t :=
  Script.mk (stats_of [("photo.jpg", 100000)])
            (fun _ => Ok tt) (Ok 100) (Ok tt)
            (untouched (fun n _ =>
                          match n with
                          | O => TrialOk (1 # 1000) 200000
                          | S O => TrialOk (1 # 2) 50000
                          | _ => TrialOk (1 # 1000) 60000
                          end)).

(** A repeatable evaluator: the score falls and the size grows with the
    quality. *)
Definition curve (q : Z) : Q * Z := ((100 - q) # 1000, 500 * q)%Z.

Definition jpeg_repeatable : Script.t :=
  Script.mk (stats_of [("photo.jpg", 100000)])
            (fun _ => Ok tt) (Ok 70) (Ok tt)
            (untouched (fun _ q =>
                          match q with
                          | Some q => TrialOk (curve q).1 (curve q).2
                          | None => TrialFail Js.Undefined
                          end)).

(** A JPEG of 1000 bytes guessed at quality 100 that scores 0.5 with
    50 bytes at every quality. *)
Definition jpeg_stuck : Script.t :=
  Script.mk (stats_of [("photo.jpg", 1000)])
            (fun _ => Ok tt) (Ok 100) (Ok tt)
            (untouched (fun _ _ => TrialOk (1 # 2) 50)).

(** A trial collaborator that scribbles into the table it is handed. *)
Definition jpeg_scribbling : Script.t :=
  Script.mk (stats_of [("photo.jpg", 100000)])
            (fun _ => Ok tt) (Ok 80) (Ok tt)
            (fun _ _ trials =>
               (TrialOk (1 # 100) 60000, <[7 := TrialRecord.mk 0 0 0]> trials)).

(** A file that is neither a JPEG nor a PNG by its name. *)
Definition jpeg_unreadable : Script.t :=
  Script.mk (stats_of [])
            (fun _ => Ok tt) (Ok 80) (Ok tt)
            (untouched (fun _ _ => TrialOk (1 # 100) 60000)).

(** A JPEG of 100000 bytes guessed at quality 80 that cannot be
    converted to a reference PNG. *)
Definition jpeg_no_reference : Script.t :=
  Script.mk (stats_of [("photo.jpg", 100000)])
            (fun _ => Ok tt) (Ok 80) (Failed (Js.Str "convert: no decode delegate"))
            (untouched (fun _ _ => TrialOk (1 # 100) 60000)).

(** A JPEG of 100000 bytes guessed at quality 80 that passes at once. *)
Definition jpeg_first_try : Script.t :=
  Script.mk (stats_of [("photo.jpg", 100000)])
            (fun _ => Ok tt) (Ok 80) (Ok tt)
            (untouched (fun _ _ => TrialOk (1 # 100) 60000)).

(** The same input whose quality cannot be guessed. *)
Definition jpeg_no_guess : Script.t :=
  Script.mk (stats_of [("photo.jpg", 100000)])
            (fun _ => Ok tt) (Failed (Js.ErrorObj "identify failed")) (Ok tt)
            (untouched (fun _ _ => TrialOk (1 # 100) 60000)).

(** The same input whose first trial fails. *)
Definition jpeg_trial_fails : Script.t :=
  Script.mk (stats_of [("photo.jpg", 100000)])
            (fun _ => Ok tt) (Ok 80) (Ok tt)
            (untouched (fun _ _ => TrialFail (Js.Str "Couldn't encode WebP."))).

(** A JPEG of 1000 bytes guessed at quality 75 whose WebP has 2000 bytes
    at every quality, the negative ones included. *)
Definition jpeg_never_smaller : Script.t :=
  Script.mk (stats_of [("photo.jpg", 1000)])
            (fun _ => Ok tt) (Ok 75) (Ok tt)
            (untouched (fun _ _ => TrialOk (1 # 2) 2000)).

(** A repeatable evaluator with score 0.5 throughout, and 2000 bytes at
    quality 50 and above, 50 bytes below. *)
Definition swing (q : Z) : Q * Z := (1 # 2, if 50 <=? q then 2000 else 50).

(** A JPEG of 1000 bytes guessed at quality 50 on that evaluator: too
    large at 50, too poor at 1, the search swings between the two. *)
Definition jpeg_oscillating : Script.t :=
  Script.mk (stats_of [("photo.jpg", 1000)])
            (fun _ => Ok tt) (Ok 50) (Ok tt)
            (untouched (fun _ q =>
                          match q with
                          | Some q => TrialOk (swing q).1 (swing q).2
                          | None => TrialFail Js.Undefined
                          end)).

(** A repeatable evaluator that is flat: score 0.025 and 60000 bytes at
    every quality. *)
Definition flat (q : Z) : Q * Z := (25 # 1000, 60000).

(** A JPEG of 100000 bytes guessed at quality 100 on that evaluator. *)
Definition jpeg_flat : Script.t :=
  Script.mk (stats_of [("photo.jpg", 100000)])
            (fun _ => Ok tt) (Ok 100) (Ok tt)
            (untouched (fun _ q =>
                          match q with
                          | Some q => TrialOk (flat q).1 (flat q).2
                          | None => TrialFail Js.Undefined
                          end)).

(** A table from earlier work: quality 100 tried three times, quality 40
    once. *)
Definition earlier_trials : Trials :=
  <[100 := TrialRecord.mk (1 # 2) 50 3]> (<[40 := TrialRecord.mk (3 # 4) 20 1]> ∅).

End Sample.

(** * Properties *)

(** ** The PNG branch *)

Section PngBranch.

Context {W : Type}.
Variable U : Utils.
Variable C : Collaborators W.

(** A PNG input never reaches the search: the call is [pngPath], whatever
    the threshold, the start quality and the fuel. *)
Lemma webpRecompress_png fuel input threshold thresholdMultiplier start quiet verbose
      prior priorTrials (st : St W) :
  test (pngRegex U) input = true ->
  webpRecompress U C fuel input threshold thresholdMultiplier start quiet verbose prior
                 priorTrials st
  = Some ((pngPath U C input st).1, default ∅ priorTrials, (pngPath U C input st).2).
Proof.
  intros Hpng.
  destruct fuel; simpl; unfold attempt; rewrite Hpng;
    destruct (pngPath U C input st); reflexivity.
Qed.

(** The calls of the PNG branch: the probe of the input, then at most
    one run of cwebp with quality 100, then the probe of the output. *)
Lemma pngPath_log input (st : St W) :
  let out := resolve C (replace (pngRegex U) input ".webp") in
  let argv := [AStr "-q"; ANum 100; AStr "-mt"; AStr input; AStr "-o"; AStr out] in
  let o := (pngPath U C input st).1 in
  let l := log (pngPath U C input st).2 in
  (o = Return false size_failure_png /\ l = log st ++ [EvStat input])
  \/ (o = Return false encode_failure_png /\ l = log st ++ [EvStat input; EvExecFile argv])
  \/ l = log st ++ [EvStat input; EvExecFile argv; EvStat out].
Proof.
  cbv zeta. unfold pngPath, stat, encodeWebp, encodeWebp_argv, emit.
  destruct (statAsync C input (world st)) as [[s1|d1] w1]; simpl.
  2:{ left. split; reflexivity. }
  destruct (execFileAsync C _ w1) as [[[]|d2] w2]; simpl.
  2:{ right; left. split; [reflexivity|]. rewrite <- app_assoc. reflexivity. }
  right; right.
  destruct (statAsync C _ w2) as [[s3|d3] w3]; simpl.
  - rewrite <- !app_assoc. reflexivity.
  - destruct (Js.nullish d3); simpl; rewrite <- !app_assoc; reflexivity.
Qed.

End PngBranch.

(** C1 (a defect of the code).  A PNG input is to get exactly one
    lossless encode at maximum quality and no search.  At the input
    "photo.png" the call probes the input, runs cwebp once and probes the
    output, and no trial is run; but the argument vector that
    lib/encode-webp.mjs builds is [-q 100 -mt photo.png -o photo.webp]: it
    carries no switch selecting the lossless coder, so the one encode is a
    lossy one at quality 100. *)
Theorem C1_png_encode_lacks_lossless_switch :
  exists argv tbl st',
    webpRecompress Sample.utils (Script.collaborators Sample.png_ok) 0
                   "photo.png" (1 # 100) (3 # 2) 75 false false false None Script.start
    = Some (Return true (PngEncoded 5000 (Some 3000)), tbl, st')
    /\ log st' = [EvStat "photo.png"; EvExecFile argv; EvStat "photo.webp"]
    /\ argv = [AStr "-q"; ANum 100; AStr "-mt"; AStr "photo.png"; AStr "-o"; AStr "photo.webp"]
    /\ selects_lossless argv = false.
Proof.
  eexists _, _, _. split; [vm_compute; reflexivity|].
  split; [reflexivity|]. split; reflexivity.
Qed.

(** C4, as stated, fails on a PNG input: with the threshold 5 the call
    still probes and encodes "photo.png" and reports success. *)
Lemma C4_counterexample :
  exists tbl st',
    webpRecompress Sample.utils (Script.collaborators Sample.png_ok) 0
                   "photo.png" 5 (3 # 2) 75 false false false None Script.start
    = Some (Return true (PngEncoded 5000 (Some 3000)), tbl, st')
    /\ log st' = [EvStat "photo.png";
                  EvExecFile [AStr "-q"; ANum 100; AStr "-mt"; AStr "photo.png";
                              AStr "-o"; AStr "photo.webp"];
                  EvStat "photo.webp"]
    /\ (1 < 5)%Q.
Proof.
  eexists _, _. split; [vm_compute; reflexivity|].
  split; [reflexivity|]. reflexivity.
Qed.

(** C4, amended.  For every JPEG input (one the PNG pattern does not
    match), a threshold above 1 or below 0 makes the call return
    [false, "Threshold must be between 0 and 1."] with the world and the
    log as they were: no probe, conversion, trial or encode has run. *)
Theorem C4_threshold_checked_before_jpeg_search {W} (U : Utils) (C : Collaborators W)
    fuel input threshold thresholdMultiplier start quiet verbose prior priorTrials (st : St W) :
  test (pngRegex U) input = false ->
  test (jpegRegex U) input = true ->
  (1 < threshold \/ threshold < 0)%Q ->
  webpRecompress U C fuel input threshold thresholdMultiplier start quiet verbose prior
                 priorTrials st
  = Some (Return false threshold_failure, default ∅ priorTrials, st).
Proof.
  intros Hpng Hjpeg Hout.
  assert (Hchk : negb (Qle_bool threshold 1) || negb (Qle_bool 0 threshold) = true).
  { apply orb_true_iff. destruct Hout as [H|H]; [left|right];
      apply negb_true_iff, not_true_is_false; rewrite Qle_bool_iff;
      intros Hle; exact (Qlt_not_le _ _ H Hle). }
  destruct fuel; simpl; unfold attempt; rewrite Hpng, Hjpeg; simpl; rewrite Hchk; reflexivity.
Qed.

(** The amended C4 at "photo.jpg" with the threshold 5. *)
Lemma C4_threshold_checked_before_jpeg_search_witness :
  webpRecompress Sample.utils (Script.collaborators Sample.jpeg_repeatable) 0
                 "photo.jpg" 5 (3 # 2) 75 false false false None Script.start
  = Some (Return false threshold_failure, ∅, Script.start).
Proof.
  apply (C4_threshold_checked_before_jpeg_search Sample.utils
           (Script.collaborators Sample.jpeg_repeatable) 0 "photo.jpg" 5 (3 # 2) 75
           false false false None Script.start).
  - reflexivity.
  - reflexivity.
  - left. reflexivity.
Defined.

(** C10, as stated, fails when the failed probe of the output file hands
    over the error it was rejected with: the read of [size] yields
    [undefined], the flag is tested next, and the call returns
    [false, "Couldn't get the size of PNG input."]. *)
Lemma C10_counterexample :
  exists st',
    Script.on_stat Sample.png_output_unreadable "photo.webp"
    = Failed (Js.ErrorObj "ENOENT: no such file or directory")
    /\ pngPath Sample.utils (Script.collaborators Sample.png_output_unreadable)
               "photo.png" Script.start
       = (Return false size_failure_png, st')
    /\ log st' = [EvStat "photo.png";
                  EvExecFile [AStr "-q"; ANum 100; AStr "-mt"; AStr "photo.png";
                              AStr "-o"; AStr "photo.webp"];
                  EvStat "photo.webp"].
Proof.
  eexists. split; [reflexivity|]. split; [vm_compute; reflexivity | reflexivity].
Qed.

(** C10, amended.  On the PNG branch the [size] of the output probe's
    datum is read before the failure flag is tested.  When that probe
    fails, the call throws a TypeError if the datum is [null] or
    [undefined], and otherwise (the datum is the error) returns the tagged
    failure [false, "Couldn't get the size of PNG input."]. *)
Theorem C10_failed_output_probe {W} (U : Utils) (C : Collaborators W)
    input (st st1 st2 st3 : St W) s1 d :
  stat C input st = (Ok s1, st1) ->
  encodeWebp C input (resolve C (replace (pngRegex U) input ".webp")) 100 st1 = (Ok tt, st2) ->
  stat C (resolve C (replace (pngRegex U) input ".webp")) st2 = (Failed d, st3) ->
  pngPath U C input st
  = (if Js.nullish d
     then Throw (Js.TypeError "Cannot read properties of undefined (reading 'size')")
     else Return false size_failure_png,
     st3).
Proof.
  intros H1 H2 H3. unfold pngPath. rewrite H1, H2, H3. simpl.
  destruct (Js.nullish d); reflexivity.
Qed.

(** The amended C10 at a run whose output probe is rejected with an error. *)
Lemma C10_failed_output_probe_witness :
  pngPath Sample.utils (Script.collaborators Sample.png_output_unreadable)
          "photo.png" Script.start
  = (Return false size_failure_png,
     mkSt 0%nat [EvStat "photo.png";
                 EvExecFile [AStr "-q"; ANum 100; AStr "-mt"; AStr "photo.png";
                             AStr "-o"; AStr "photo.webp"];
                 EvStat "photo.webp"]).
Proof.
  apply (C10_failed_output_probe Sample.utils
           (Script.collaborators Sample.png_output_unreadable) "photo.png"
           Script.start
           (mkSt 0%nat [EvStat "photo.png"])
           (mkSt 0%nat [EvStat "photo.png";
                        EvExecFile [AStr "-q"; ANum 100; AStr "-mt"; AStr "photo.png";
                                    AStr "-o"; AStr "photo.webp"]])
           _ (mkStats 5000) (Js.ErrorObj "ENOENT: no such file or directory")).
  - reflexivity.
  - reflexivity.
  - reflexivity.
Defined.

(** ** The confirming trial *)

Section Confirming.

Context {W : Type}.
Variable U : Utils.
Variable C : Collaborators W.

(** The result of the confirming trial is not looked at: the branch
    reports the candidate whatever that trial resolves to. *)
Lemma finish_outcome input inputSize files score trials (st : St W) :
  (finish U C input inputSize files score trials st).1.1
  = Return true (CandidateFound (getFinalQuality U score trials).1 inputSize
                                (getFinalQuality U score trials).2).
Proof.
  unfold finish, run_trial.
  destruct (getFinalQuality U score trials) as [q sz].
  destruct (trial C _ _ _ _ _ _ _) as [[out t'] w]. reflexivity.
Qed.

(** The table it returns is the one it was given. *)
Lemma finish_table input inputSize files score trials (st : St W) :
  (finish U C input inputSize files score trials st).1.2 = trials.
Proof.
  unfold finish, run_trial.
  destruct (getFinalQuality U score trials) as [q sz].
  destruct (trial C _ _ _ _ _ _ _) as [[out t'] w]. reflexivity.
Qed.

(** Its calls: the trial at the chosen quality, quiet, then the cleanup. *)
Lemma finish_log input inputSize files score trials (st : St W) :
  exists out,
    log (finish U C input inputSize files score trials st).2
    = log st ++ [EvTrial Confirm (getFinalQuality U score trials).1 true out;
                 EvCleanUp files].
Proof.
  unfold finish, run_trial, emit.
  destruct (getFinalQuality U score trials) as [q sz].
  destruct (trial C _ _ _ _ _ _ _) as [[out t'] w]. exists out. simpl.
  rewrite <- app_assoc. reflexivity.
Qed.

(** A probe that fails ends the call with the trial's detail. *)
Lemma body_probe_failure input inputSize files threshold quiet quality trials
      (st : St W) data :
  (trial C input inputSize files (Some quality) quiet trials (world st)).1.1
  = TrialFail data ->
  exists trials' st',
    body U C input inputSize files threshold quiet quality trials st
    = Bail (TrialFailed data) trials' st'.
Proof.
  unfold body, run_trial.
  destruct (trial C _ _ _ _ _ _ _) as [[out t'] w]. simpl. intros ->. eauto.
Qed.

End Confirming.

(** C9.  The confirming trial is handed a fresh, empty table, so the
    table of the search is the same before and after it, key by key, even
    with a trial collaborator that writes into the table it is given. *)
Theorem C9_confirming_trial_leaves_table {W} (U : Utils) (C : Collaborators W)
    input inputSize files score (trials : Trials) (st : St W) :
  (finish U C input inputSize files score trials st).1.2 = trials
  /\ forall q : Z, (finish U C input inputSize files score trials st).1.2 !! q = trials !! q.
Proof.
  pose proof (finish_table U C input inputSize files score trials st) as H.
  split; [exact H|]. intros q. rewrite H. reflexivity.
Qed.

(** With a collaborator that writes the key 7 into every table it is
    handed, the probe leaves its mark on the table of the search and the
    confirming trial does not. *)
Example scribbling_probe_and_confirm :
  let C := Script.collaborators Sample.jpeg_scribbling in
  let files := working_files Sample.utils C "photo.jpg" in
  (exists q sc sz tbl st',
      body Sample.utils C "photo.jpg" 100000 files (2 # 100) false 80 ∅ Script.start
      = Leave q sc sz tbl st' /\ tbl !! 7 = Some (TrialRecord.mk 0 0 0))
  /\ (finish Sample.utils C "photo.jpg" 100000 files (1 # 100) ∅ Script.start).1.2 !! 7 = None.
Proof.
  split.
  - eexists _, _, _, _, _. split; [vm_compute; reflexivity|]. vm_compute. reflexivity.
  - vm_compute. reflexivity.
Qed.

(** C8 (a defect of the code).  A failing trial is to abort the search,
    the confirming trial included.  Here the probe at quality 80 passes and
    the confirming trial at 80 fails; the call nevertheless returns
    [true, "Candidate found ..."]. *)
Theorem C8_failed_confirming_trial_is_ignored :
  exists tbl st',
    webpRecompress Sample.utils (Script.collaborators Sample.jpeg_confirm_fails) 5
                   "photo.jpg" (2 # 100) (3 # 2) 75 false false false None Script.start
    = Some (Return true (CandidateFound (Some 80) 100000 (Some 60000)), tbl, st')
    /\ log st' = [EvStat "photo.jpg"; EvIdentify "photo.jpg";
                  EvConvert "photo.jpg" "photo.png";
                  EvTrial Probe (Some 80) false (TrialOk (1 # 100) 60000);
                  EvTrial Confirm (Some 80) true (TrialFail (Js.Str "Couldn't encode WebP."));
                  EvCleanUp (mkFiles "photo.png" "photo.webp" "photo-webp.png")].
Proof.
  eexists _, _. split; [vm_compute; reflexivity | reflexivity].
Qed.

(** ** The decrease step *)

(** On a size regression below the attempt cap the next quality is
    [quality - interval], with no clamp. *)
Lemma body_size_regression {W} (U : Utils) (C : Collaborators W)
    input inputSize files threshold quiet quality trials (st : St W) score size :
  (trial C input inputSize files (Some quality) quiet trials (world st)).1.1
  = TrialOk score size ->
  inputSize <= size ->
  (attempts_at quality
     (record_attempt quality score size
        (trial C input inputSize files (Some quality) quiet trials (world st)).1.2) <= 3)%nat ->
  exists trials' st',
    body U C input inputSize files threshold quiet quality trials st
    = Again (quality - getQualityInterval U score threshold quality) score size trials' st'.
Proof.
  unfold body, run_trial.
  destruct (trial C _ _ _ _ _ _ _) as [[out t'] w]. simpl. intros -> Hsz Hat.
  apply Nat.leb_le in Hat. rewrite Nat.ltb_antisym, Hat. simpl.
  apply Z.leb_le in Hsz. rewrite Hsz. eauto.
Qed.

(** C3 (a defect of the code).  The quality is to stay within [0,100]
    at every iteration, through the decrease step too.  For a JPEG whose
    WebP is larger at every quality the search starts at 75 and steps down
    by 49 with no clamp: it probes 75, 26 and then -23. *)
Theorem C3_decrease_step_leaves_range :
  exists tbl st',
    webpRecompress Sample.utils (Script.collaborators Sample.jpeg_always_larger) 5
                   "photo.jpg" (1 # 100) (3 # 2) 75 false false false None Script.start
    = Some (Return false (TrialFailed (Js.Str "cwebp: quality out of range")), tbl, st')
    /\ log st' = [EvStat "photo.jpg"; EvIdentify "photo.jpg";
                  EvConvert "photo.jpg" "photo.png";
                  EvTrial Probe (Some 75) false (TrialOk (1 # 2) 2000);
                  EvTrial Probe (Some 26) false (TrialOk (1 # 2) 2000);
                  EvTrial Probe (Some (-23)) false
                          (TrialFail (Js.Str "cwebp: quality out of range"))]
    /\ ~ (0 <= -23 <= 100).
Proof.
  eexists _, _. split; [vm_compute; reflexivity|]. split; [reflexivity | lia].
Qed.

(** ** Recording an attempt *)

Lemma record_attempt_insert quality score size (trials : Trials) :
  record_attempt quality score size trials
  = <[quality := match trials !! quality with
                 | Some r => TrialRecord.bump r
                 | None => TrialRecord.mk score size 1
                 end]> trials.
Proof.
  unfold record_attempt. apply map_eq. intros j.
  destruct (decide (quality = j)) as [<-|Hne].
  - rewrite lookup_alter_eq, lookup_insert_eq.
    destruct (trials !! quality) as [r|] eqn:E.
    + rewrite E. reflexivity.
    + rewrite lookup_insert_eq. reflexivity.
  - rewrite lookup_alter_ne, lookup_insert_ne by assumption.
    destruct (trials !! quality); [reflexivity|].
    rewrite lookup_insert_ne by assumption. reflexivity.
Qed.

Lemma attempts_at_insert quality r (trials : Trials) :
  attempts_at quality (<[quality := r]> trials) = TrialRecord.attempts r.
Proof. unfold attempts_at. rewrite lookup_insert_eq. reflexivity. Qed.

(** One turn of the do-while. *)
Lemma loop_S {W} (U : Utils) (C : Collaborators W) fuel input inputSize files threshold
      quiet quality (trials : Trials) (st : St W) :
  loop U C (S fuel) input inputSize files threshold quiet quality trials st
  = match body U C input inputSize files threshold quiet quality trials st with
    | Bail msg trials st => Some (Aborted msg trials st)
    | Leave quality score size trials st => Some (Exited quality score size trials st)
    | Again quality score size trials st =>
        if while_cond threshold inputSize score size
        then loop U C fuel input inputSize files threshold quiet quality trials st
        else Some (Exited quality score size trials st)
    end.
Proof. reflexivity. Qed.

(** ** The table and the log *)

Lemma probes_at_app q (l1 l2 : list Event) :
  probes_at q (l1 ++ l2) = probes_at q l1 ++ probes_at q l2.
Proof. unfold probes_at. apply flat_map_app. Qed.

Lemma accounts_for_silent (l pre : list Event) (trials : Trials) :
  silent pre -> accounts_for l trials -> accounts_for (l ++ pre) trials.
Proof.
  intros Hs H q. unfold recorded. rewrite probes_at_app, Hs, app_nil_r. apply H.
Qed.

(** Recording a successful probe keeps the table in step with the log. *)
Lemma record_attempt_accounts quality quiet score size (l : list Event) (trials : Trials) :
  accounts_for l trials ->
  accounts_for (l ++ [EvTrial Probe (Some quality) quiet (TrialOk score size)])
               (record_attempt quality score size trials).
Proof.
  intros H q. rewrite record_attempt_insert. unfold recorded.
  rewrite probes_at_app. cbn [probes_at flat_map observation]. rewrite app_nil_r.
  destruct (decide (quality = q)) as [->|Hne].
  - rewrite lookup_insert_eq, (H q). unfold recorded.
    destruct (probes_at q l) as [|[s0 z0] rest]; [reflexivity|].
    cbn [app TrialRecord.bump TrialRecord.score TrialRecord.size TrialRecord.attempts].
    rewrite length_app. cbn [length]. rewrite Nat.add_1_r. reflexivity.
  - rewrite lookup_insert_ne by assumption. rewrite app_nil_r. apply H.
Qed.

Section Accounting.

Context {W : Type}.
Variable U : Utils.
Variable C : Collaborators W.
Hypothesis frame : keeps_table C.

Lemma body_accounts input inputSize files threshold quiet quality trials (st : St W) :
  accounts_for (log st) trials ->
  step_accounts (body U C input inputSize files threshold quiet quality trials st).
Proof.
  intros H. unfold body, run_trial.
  pose proof (frame input inputSize files (Some quality) quiet trials (world st)) as Hf.
  destruct (trial C _ _ _ _ _ _ _) as [[out t'] w']. simpl in Hf. subst t'.
  destruct out as [score size|data].
  - pose proof (record_attempt_accounts quality quiet score size _ _ H) as H'.
    destruct (3 <? _)%nat; [exact H'|].
    destruct (inputSize <=? size); [exact H'|].
    destruct (Qle_bool score threshold); exact H'.
  - simpl. apply accounts_for_silent; [|exact H]. intros q. reflexivity.
Qed.

Lemma loop_accounts fuel input inputSize files threshold quiet :
  forall quality trials (st : St W) e,
    accounts_for (log st) trials ->
    loop U C fuel input inputSize files threshold quiet quality trials st = Some e ->
    exit_accounts e.
Proof.
  induction fuel as [|fuel IH]; intros quality trials st e H; [discriminate|].
  rewrite loop_S.
  pose proof (body_accounts input inputSize files threshold quiet quality trials st H) as Hb.
  destruct (body U C _ _ _ _ _ _ _ _) as [q' sc sz t' st'|q' sc sz t' st'|msg t' st'];
    simpl in Hb.
  - destruct (while_cond threshold inputSize sc sz).
    + apply IH. exact Hb.
    + intros [= <-]. exact Hb.
  - intros [= <-]. exact Hb.
  - intros [= <-]. exact Hb.
Qed.

End Accounting.

(** ** One invocation *)

Section Invocation.

Context {W : Type}.
Variable U : Utils.
Variable C : Collaborators W.

(** An invocation either returns early, with the table as it was handed
    in and without a candidate, or runs the loop, from the table handed
    in and with a threshold inside [0,1], and concludes from its exit. *)
Lemma attempt_inv fuel input threshold thresholdMultiplier start quiet verbose prior
      priorTrials (st : St W) a :
  attempt U C fuel input threshold thresholdMultiplier start quiet verbose prior
          priorTrials st = Some a ->
  (exists o st' pre,
      a = Done o (default ∅ priorTrials) st'
      /\ log st' = log st ++ pre /\ silent pre
      /\ forall q i s, o <> Return true (CandidateFound q i s))
  \/ (exists inputSize quality0 st0 pre e,
         log st0 = log st ++ pre /\ silent pre
         /\ (0 <= threshold)%Q /\ (threshold <= 1)%Q
         /\ loop U C fuel input inputSize (working_files U C input) threshold quiet
                  quality0 (default ∅ priorTrials) st0 = Some e
         /\ a = conclude U C input inputSize threshold thresholdMultiplier e).
Proof.
  unfold attempt.
  destruct (test (pngRegex U) input) eqn:Hpng.
  { (* the PNG branch *)
    pose proof (pngPath_log U C input st) as Hlog. cbv zeta in Hlog.
    destruct (pngPath U C input st) as [o st'] eqn:E. simpl in Hlog.
    intros [= <-]. left.
    destruct Hlog as [[-> Hl]|[[-> Hl]|Hl]].
    - eexists _, _, _. split; [reflexivity|]. split; [exact Hl|].
      split; [intros q; reflexivity | discriminate].
    - eexists _, _, _. split; [reflexivity|]. split; [exact Hl|].
      split; [intros q; reflexivity | discriminate].
    - eexists _, _, _. split; [reflexivity|]. split; [exact Hl|].
      split; [intros q; reflexivity|].
      revert E. unfold pngPath.
      destruct (stat C input st) as [[?|?] ?]; [|intros [= <- _]; discriminate].
      destruct (encodeWebp C _ _ _ _) as [[?|?] ?]; [|intros [= <- _]; discriminate].
      destruct (stat C _ _) as [r3 ?].
      destruct (data_size r3); [|intros [= <- _]; discriminate].
      destruct r3; intros [= <- _]; discriminate. }
  destruct (negb (test (jpegRegex U) input) && negb false).
  { intros [= <-]. left. exists (Return false format_failure), st, [].
    rewrite app_nil_r. split; [reflexivity|]. split; [reflexivity|].
    split; [intros q; reflexivity | discriminate]. }
  destruct (negb (Qle_bool threshold 1) || negb (Qle_bool 0 threshold)) eqn:Hthr.
  { intros [= <-]. left. exists (Return false threshold_failure), st, [].
    rewrite app_nil_r. split; [reflexivity|]. split; [reflexivity|].
    split; [intros q; reflexivity | discriminate]. }
  apply orb_false_iff in Hthr as [H1 H0].
  apply negb_false_iff, Qle_bool_iff in H1. apply negb_false_iff, Qle_bool_iff in H0.
  unfold stat.
  destruct (statAsync C input (world st)) as [[s|d] w1].
  2:{ intros [= <-]. left. eexists _, _, [EvStat input].
      split; [reflexivity|]. split; [reflexivity|].
      split; [intros q; reflexivity | discriminate]. }
  set (start' := if (100 <? start) || (start <? 0) then clampQuality U start else start).
  destruct prior.
  - (* a retry: no quality guess *)
    cbn [world log emit].
    destruct (convert C input _ w1) as [[[]|d] w2].
    2:{ intros [= <-]. left. eexists _, _, [EvStat input; EvConvert input _].
        split; [reflexivity|]. split; [unfold emit; simpl; rewrite <- app_assoc; reflexivity|].
        split; [intros q; reflexivity | discriminate]. }
    destruct (loop U C fuel _ _ _ _ _ _ _ _) as [e|] eqn:El; [|discriminate].
    intros Ha. right.
    exists (stat_size s), start',
      (emit (EvConvert input (refPng (working_files U C input))) w2
            (emit (EvStat input) w1 st)),
      [EvStat input; EvConvert input (refPng (working_files U C input))], e.
    split; [unfold emit; simpl; rewrite <- app_assoc; reflexivity|].
    split; [intros q; reflexivity|]. split; [exact H0|]. split; [exact H1|].
    split; [exact El|]. unfold conclude.
    destruct e as [q' sc sz t' st'|msg t' st']; [|injection Ha as <-; reflexivity].
    destruct (passes threshold (stat_size s) sc sz); [|injection Ha as <-; reflexivity].
    destruct (finish U C _ _ _ _ _ _) as [[o t2] st2]. injection Ha as <-. reflexivity.
  - (* a fresh call: the quality guess comes first *)
    destruct (identify C input _) as [g w2]. cbn [world log emit].
    destruct (convert C input _ w2) as [[[]|d] w3].
    2:{ intros [= <-]. left.
        eexists _, _, [EvStat input; EvIdentify input; EvConvert input _].
        split; [reflexivity|].
        split; [unfold emit; simpl; rewrite <- !app_assoc; reflexivity|].
        split; [intros q; reflexivity | discriminate]. }
    destruct (loop U C fuel _ _ _ _ _ _ _ _) as [e|] eqn:El; [|discriminate].
    intros Ha. right.
    exists (stat_size s), (match g with Ok q => q | Failed _ => start' end),
      (emit (EvConvert input (refPng (working_files U C input))) w3
            (emit (EvIdentify input) w2 (emit (EvStat input) w1 st))),
      [EvStat input; EvIdentify input;
       EvConvert input (refPng (working_files U C input))], e.
    split; [unfold emit; simpl; rewrite <- !app_assoc; reflexivity|].
    split; [intros q; reflexivity|]. split; [exact H0|]. split; [exact H1|].
    split; [exact El|]. unfold conclude.
    destruct e as [q' sc sz t' st'|msg t' st']; [|injection Ha as <-; reflexivity].
    destruct (passes threshold (stat_size s) sc sz); [|injection Ha as <-; reflexivity].
    destruct (finish U C _ _ _ _ _ _) as [[o t2] st2]. injection Ha as <-. reflexivity.
Qed.

End Invocation.

Lemma webpRecompress_unfold {W} (U : Utils) (C : Collaborators W) fuel input threshold
      thresholdMultiplier start quiet verbose prior priorTrials (st : St W) :
  webpRecompress U C fuel input threshold thresholdMultiplier start quiet verbose prior
                 priorTrials st
  = match attempt U C fuel input threshold thresholdMultiplier start quiet verbose prior
                  priorTrials st with
    | None => None
    | Some (Done o trials st) => Some (o, trials, st)
    | Some (Retry threshold' start' trials st) =>
        match fuel with
        | O => None
        | S fuel' =>
            webpRecompress U C fuel' input threshold' thresholdMultiplier start' quiet verbose
                           true (Some trials) st
        end
    end.
Proof. destruct fuel; reflexivity. Qed.

Section AccountingDriver.

Context {W : Type}.
Variable U : Utils.
Variable C : Collaborators W.
Hypothesis frame : keeps_table C.

Lemma conclude_accounts input inputSize threshold thresholdMultiplier (e : @LoopExit W) :
  exit_accounts e ->
  attempt_accounts (conclude U C input inputSize threshold thresholdMultiplier e).
Proof.
  destruct e as [q sc sz trials st|msg trials st]; simpl; [|tauto].
  intros H. destruct (passes threshold inputSize sc sz); [|exact H].
  pose proof (finish_table U C input inputSize (working_files U C input) sc trials st) as Ht.
  destruct (finish_log U C input inputSize (working_files U C input) sc trials st)
    as [out Hl].
  destruct (finish U C _ _ _ _ _ _) as [[o t2] st2]. simpl in *. subst t2.
  rewrite Hl. apply accounts_for_silent; [|exact H]. intros q'. reflexivity.
Qed.

Lemma attempt_accounts_for fuel input threshold thresholdMultiplier start quiet verbose
      prior priorTrials (st : St W) a :
  accounts_for (log st) (default ∅ priorTrials) ->
  attempt U C fuel input threshold thresholdMultiplier start quiet verbose prior
          priorTrials st = Some a ->
  attempt_accounts a.
Proof.
  intros H Ha.
  destruct (attempt_inv U C _ _ _ _ _ _ _ _ _ _ _ Ha)
    as [(o & st' & pre & -> & Hl & Hs & _)
       |(inputSize & q0 & st0 & pre & e & Hl & Hs & _ & _ & El & ->)].
  - simpl. rewrite Hl. apply accounts_for_silent; assumption.
  - apply conclude_accounts.
    eapply (loop_accounts U C frame); [|exact El].
    rewrite Hl. apply accounts_for_silent; assumption.
Qed.

Lemma webpRecompress_accounts fuel :
  forall input threshold thresholdMultiplier start quiet verbose prior priorTrials
         (st : St W) o trials st',
    accounts_for (log st) (default ∅ priorTrials) ->
    webpRecompress U C fuel input threshold thresholdMultiplier start quiet verbose prior
                   priorTrials st = Some (o, trials, st') ->
    accounts_for (log st') trials.
Proof.
  induction fuel as [|fuel IH]; intros input threshold m start quiet verbose prior
    priorTrials st o trials st' H; rewrite webpRecompress_unfold;
    destruct (attempt U C _ _ _ _ _ _ _ _ _ _) as [[o1 t1 st1|th1 q1 t1 st1]|] eqn:Ea;
    try discriminate;
    pose proof (attempt_accounts_for _ _ _ _ _ _ _ _ _ _ _ H Ea) as Ha; simpl in Ha.
  - intros [= <- <- <-]. exact Ha.
  - intros [= <- <- <-]. exact Ha.
  - intros Hr. eapply IH; [|exact Hr]. exact Ha.
Qed.

End AccountingDriver.

(** C2, as stated, fails when the trials at one quality do not repeat:
    the search below probes quality 100 twelve times, first with score 0.5
    and 50 bytes, then with 0.25 and 60 bytes; the entry for 100 still
    holds 0.5 and 50 at the end. *)
Lemma C2_counterexample :
  exists o tbl st' r,
    webpRecompress Sample.utils (Script.collaborators Sample.jpeg_drifting) 20
                   "photo.jpg" (1 # 100) (3 # 2) 75 false false false None Script.start
    = Some (o, tbl, st')
    /\ tbl !! 100 = Some r
    /\ last (probes_at 100 (log st')) = Some ((1 # 4)%Q, 60)
    /\ TrialRecord.score r = (1 # 2)%Q /\ TrialRecord.size r = 50.
Proof.
  eexists _, _, _, _. split; [vm_compute; reflexivity|].
  split; [vm_compute; reflexivity|].
  split; [vm_compute; reflexivity|]. split; reflexivity.
Qed.

(** C2, amended.  In a search started with no table, with a trial
    collaborator that leaves the table alone, every entry of the table
    holds the score and the size of the first successful probe at its
    quality, and counts the successful probes at that quality. *)
Theorem C2_entries_hold_first_observation {W} (U : Utils) (C : Collaborators W)
    fuel input threshold thresholdMultiplier start quiet verbose prior (w : W) o
    (trials : Trials) st' :
  keeps_table C ->
  webpRecompress U C fuel input threshold thresholdMultiplier start quiet verbose prior None
                 (mkSt w []) = Some (o, trials, st') ->
  forall q r,
    trials !! q = Some r ->
    head (probes_at q (log st')) = Some (TrialRecord.score r, TrialRecord.size r)
    /\ TrialRecord.attempts r = length (probes_at q (log st')).
Proof.
  intros Hframe Hrun q r Hq.
  pose proof (webpRecompress_accounts U C Hframe fuel _ _ _ _ _ _ _ None (mkSt w []) _ _ _
                ltac:(intros k; reflexivity) Hrun q) as H.
  rewrite Hq in H. unfold recorded in H.
  destruct (probes_at q (log st')) as [|[s z] rest]; [discriminate|].
  injection H as ->. split; reflexivity.
Qed.

(** The amended C2 at the entry for quality 100 of the drifting run. *)
Lemma C2_entries_hold_first_observation_witness :
  exists o tbl st' r,
    webpRecompress Sample.utils (Script.collaborators Sample.jpeg_drifting) 20
                   "photo.jpg" (1 # 100) (3 # 2) 75 false false false None (mkSt 0%nat [])
    = Some (o, tbl, st')
    /\ tbl !! 100 = Some r
    /\ head (probes_at 100 (log st')) = Some (TrialRecord.score r, TrialRecord.size r)
    /\ TrialRecord.attempts r = length (probes_at 100 (log st')).
Proof.
  eexists _, _, _, _.
  split; [vm_compute; reflexivity|].
  split; [vm_compute; reflexivity|].
  eapply (C2_entries_hold_first_observation Sample.utils
            (Script.collaborators Sample.jpeg_drifting) 20 "photo.jpg" (1 # 100) (3 # 2) 75
            false false false 0%nat).
  - intros input inputSize files quality quiet trials w. reflexivity.
  - vm_compute. reflexivity.
  - vm_compute. reflexivity.
Defined.

(** ** The candidate that is reported *)

(** [Spec.getFinalQuality] meets the contract. *)
Lemma foldr_pick bound (l : list (Z * TrialRecord.t)) :
  match foldr (Spec.pick bound) None l with
  | None => forall x, x ∈ l -> Qle_bool (TrialRecord.score x.2) bound = false
  | Some c =>
      c ∈ l /\ Qle_bool (TrialRecord.score c.2) bound = true
      /\ forall x, x ∈ l -> Qle_bool (TrialRecord.score x.2) bound = true ->
                   TrialRecord.size c.2 <= TrialRecord.size x.2
  end.
Proof.
  induction l as [|c l IH]; cbn [foldr].
  - intros x Hx. apply elem_of_nil in Hx. contradiction.
  - unfold Spec.pick at 1.
    destruct (Qle_bool (TrialRecord.score c.2) bound) eqn:Hc.
    + destruct (foldr (Spec.pick bound) None l) as [b|].
      * destruct IH as (Hb & Hbq & Hmin).
        destruct (Spec.better c b) eqn:Hbet.
        -- split; [apply elem_of_cons; left; reflexivity|]. split; [exact Hc|].
           intros x Hx Hxq. apply elem_of_cons in Hx as [->|Hx]; [lia|].
           specialize (Hmin x Hx Hxq). unfold Spec.better in Hbet.
           apply orb_true_iff in Hbet as [H|H]; [lia|].
           apply andb_true_iff in H as [H _]. lia.
        -- split; [apply elem_of_cons; right; exact Hb|]. split; [exact Hbq|].
           intros x Hx Hxq. apply elem_of_cons in Hx as [->|Hx]; [|exact (Hmin x Hx Hxq)].
           unfold Spec.better in Hbet. apply orb_false_iff in Hbet as [H _]. lia.
      * split; [apply elem_of_cons; left; reflexivity|]. split; [exact Hc|].
        intros x Hx Hxq. apply elem_of_cons in Hx as [->|Hx]; [lia|].
        rewrite (IH x Hx) in Hxq. discriminate.
    + destruct (foldr (Spec.pick bound) None l) as [b|].
      * destruct IH as (Hb & Hbq & Hmin).
        split; [apply elem_of_cons; right; exact Hb|]. split; [exact Hbq|].
        intros x Hx Hxq. apply elem_of_cons in Hx as [->|Hx]; [|exact (Hmin x Hx Hxq)].
        rewrite Hc in Hxq. discriminate.
      * intros x Hx. apply elem_of_cons in Hx as [->|Hx]; [exact Hc | exact (IH x Hx)].
Qed.

Lemma spec_getFinalQuality_contract jpeg png precision scale threshold :
  selects_smallest_passing (Spec.utils jpeg png precision scale threshold) threshold.
Proof.
  intros score trials q r Hq Hr. cbn [getFinalQuality Spec.utils].
  unfold Spec.getFinalQuality.
  pose proof (foldr_pick threshold (map_to_list trials)) as H.
  assert (Hin : (q, r) ∈ map_to_list trials) by (apply elem_of_map_to_list; exact Hq).
  apply Qle_bool_iff in Hr.
  destruct (foldr (Spec.pick threshold) None (map_to_list trials)) as [[q' r']|].
  - destruct H as (Hc & Hcq & Hmin). exists q', r'.
    split; [reflexivity|]. split; [apply elem_of_map_to_list; exact Hc|].
    split; [apply Qle_bool_iff; exact Hcq|]. exact (Hmin (q, r) Hin Hr).
  - pose proof (H (q, r) Hin) as Hn. cbn [snd] in Hn. rewrite Hn in Hr. discriminate.
Qed.

Section Candidate.

Context {W : Type}.
Variable U : Utils.
Variable C : Collaborators W.
Variable f : Z -> Q * Z.
Hypothesis frame : keeps_table C.
Hypothesis same : repeatable C f.

Lemma body_consistent input inputSize files threshold quiet quality trials (st : St W) :
  consistent f trials ->
  step_consistent f (body U C input inputSize files threshold quiet quality trials st).
Proof.
  intros H. unfold body, run_trial.
  pose proof (frame input inputSize files (Some quality) quiet trials (world st)) as Hf.
  pose proof (same input inputSize files quality quiet trials (world st)) as Hs.
  destruct (trial C _ _ _ _ _ _ _) as [[out t'] w']. simpl in Hf, Hs. subst t'.
  destruct out as [score size|data]; [|exact H].
  specialize (Hs score size eq_refl).
  assert (Hstep : consistent f (record_attempt quality score size trials)
                  /\ holds_current (record_attempt quality score size trials) score size).
  { rewrite record_attempt_insert.
    destruct (trials !! quality) as [r|] eqn:E.
    - pose proof (H quality r E) as Hr. rewrite <- Hs in Hr. injection Hr as Hsc Hsz.
      split.
      + intros k r'. destruct (decide (quality = k)) as [<-|Hne].
        * rewrite lookup_insert_eq. intros [= <-]. simpl. rewrite Hsc, Hsz. exact Hs.
        * rewrite lookup_insert_ne by assumption. apply H.
      + exists quality, (TrialRecord.bump r). rewrite lookup_insert_eq. auto.
    - split.
      + intros k r'. destruct (decide (quality = k)) as [<-|Hne].
        * rewrite lookup_insert_eq. intros [= <-]. exact Hs.
        * rewrite lookup_insert_ne by assumption. apply H.
      + exists quality, (TrialRecord.mk score size 1). rewrite lookup_insert_eq. auto. }
  destruct (3 <? _)%nat; [exact Hstep|].
  destruct (inputSize <=? size); [exact Hstep|].
  destruct (Qle_bool score threshold); exact Hstep.
Qed.

Lemma loop_consistent fuel input inputSize files threshold quiet :
  forall quality trials (st : St W) e,
    consistent f trials ->
    loop U C fuel input inputSize files threshold quiet quality trials st = Some e ->
    exit_consistent f e.
Proof.
  induction fuel as [|fuel IH]; intros quality trials st e H; [discriminate|].
  rewrite loop_S.
  pose proof (body_consistent input inputSize files threshold quiet quality trials st H)
    as Hb.
  destruct (body U C _ _ _ _ _ _ _ _) as [q' sc sz t' st'|q' sc sz t' st'|msg t' st'];
    simpl in Hb.
  - destruct (while_cond threshold inputSize sc sz).
    + apply IH. exact (proj1 Hb).
    + intros [= <-]. exact Hb.
  - intros [= <-]. exact Hb.
  - intros [= <-]. exact Hb.
Qed.

Lemma conclude_consistent input inputSize threshold thresholdMultiplier
      (e : @LoopExit W) :
  exit_consistent f e ->
  attempt_consistent U f threshold thresholdMultiplier
                     (conclude U C input inputSize threshold thresholdMultiplier e).
Proof.
  destruct e as [q sc sz trials st|msg trials st]; simpl.
  2:{ intros _ _ oq i osz [=]. }
  intros [Hc (qp & r & Hq & Hsc & Hsz)].
  destruct (passes threshold inputSize sc sz) eqn:Hp; [|split; [exact Hc | reflexivity]].
  pose proof (finish_table U C input inputSize (working_files U C input) sc trials st) as Ht.
  pose proof (finish_outcome U C input inputSize (working_files U C input) sc trials st)
    as Ho.
  destruct (finish U C _ _ _ _ _ _) as [[o t2] st2]. simpl in Ht, Ho. subst t2 o.
  simpl. intros contract oq i osz [= <- <- <-].
  apply andb_true_iff in Hp as [Hle Hlt].
  apply Qle_bool_iff in Hle. apply Z.ltb_lt in Hlt.
  destruct (contract sc trials qp r Hq) as (q' & r' & Hg & Hq' & Hs' & Hz').
  { rewrite Hsc. exact Hle. }
  exists q', r'. rewrite Hg. simpl.
  split; [reflexivity|]. split; [reflexivity|]. split; [exact Hq'|].
  split; [exact Hs' | lia].
Qed.

Lemma attempt_consistent_for fuel input threshold thresholdMultiplier start quiet verbose
      prior priorTrials (st : St W) a :
  consistent f (default ∅ priorTrials) ->
  attempt U C fuel input threshold thresholdMultiplier start quiet verbose prior
          priorTrials st = Some a ->
  attempt_consistent U f threshold thresholdMultiplier a.
Proof.
  intros H Ha.
  destruct (attempt_inv U C _ _ _ _ _ _ _ _ _ _ _ Ha)
    as [(o & st' & pre & -> & _ & _ & Hno)
       |(inputSize & q0 & st0 & pre & e & _ & _ & _ & _ & El & ->)].
  - simpl. intros _ oq i osz Ho. destruct (Hno oq i osz Ho).
  - apply conclude_consistent. exact (loop_consistent _ _ _ _ _ _ _ _ _ _ H El).
Qed.

End Candidate.


(** ** Relaxing the threshold *)

Lemma scale_pos (precision : nat) : (0 < inject_Z (10 ^ Z.of_nat precision))%Q.
Proof.
  change 0%Q with (inject_Z 0). rewrite <- Zlt_Qlt.
  apply Z.pow_pos_nonneg; lia.
Qed.

(** Rounding never takes a number below a multiple of the precision step
    that it started above. *)
Lemma roundTo_above_grid precision (k : Z) (t x : Q) :
  (t == inject_Z k / inject_Z (10 ^ Z.of_nat precision))%Q ->
  (t <= x)%Q ->
  (t <= Spec.roundTo x precision)%Q.
Proof.
  intros Hgrid Hle. unfold Spec.roundTo.
  pose proof (scale_pos precision) as Hs.
  set (s := inject_Z (10 ^ Z.of_nat precision)) in *.
  assert (Hk : (t * s == inject_Z k)%Q).
  { rewrite Hgrid. field. intros H0. rewrite H0 in Hs. exact (Qlt_irrefl _ Hs). }
  apply Qle_shift_div_l; [exact Hs|].
  rewrite Hk. rewrite <- Zle_Qle.
  rewrite <- (Qfloor_Z k). apply Qfloor_resp_le.
  rewrite <- Hk.
  assert (t * s <= x * s)%Q by (apply Qmult_le_compat_r; [exact Hle | apply Qlt_le_weak, Hs]).
  lra.
Qed.

(** A threshold finer than the precision step can be rounded away: four
    tenths of a step, relaxed by the factor 1.1, becomes 0. *)
Lemma roundTo_drops_fine_threshold precision :
  let t := (inject_Z 4 / inject_Z (10 ^ Z.of_nat (S precision)))%Q in
  (0 <= t)%Q /\ (t <= 1)%Q /\ (1 < 11 # 10)%Q
  /\ (Spec.roundTo (t * (11 # 10)) precision == 0)%Q
  /\ ~ (t <= Spec.roundTo (t * (11 # 10)) precision)%Q.
Proof.
  intros t.
  pose proof (scale_pos precision) as Hs.
  assert (Hs1 : (inject_Z (10 ^ Z.of_nat (S precision))
                 == 10 * inject_Z (10 ^ Z.of_nat precision))%Q).
  { rewrite Nat2Z.inj_succ, Z.pow_succ_r by lia. rewrite inject_Z_mult. reflexivity. }
  set (s := inject_Z (10 ^ Z.of_nat precision)) in *.
  assert (Hne : ~ (s == 0)%Q) by (intros H0; rewrite H0 in Hs; exact (Qlt_irrefl _ Hs)).
  assert (Ht : (t == (4 # 10) / s)%Q).
  { unfold t. rewrite Hs1. field. exact Hne. }
  assert (Hpos : (0 < t)%Q).
  { rewrite Ht. apply Qlt_shift_div_l; [exact Hs|]. lra. }
  assert (Hone : (1 <= s)%Q).
  { unfold s. change 1%Q with (inject_Z 1). rewrite <- Zle_Qle.
    pose proof (Z.pow_pos_nonneg 10 (Z.of_nat precision)). lia. }
  assert (Hround : (Spec.roundTo (t * (11 # 10)) precision == 0)%Q).
  { unfold Spec.roundTo. fold s.
    assert (Harg : (t * (11 # 10) * s + (1 # 2) == 94 # 100)%Q).
    { rewrite Ht. field. exact Hne. }
    rewrite Harg. change (Qfloor (94 # 100)) with 0%Z.
    unfold Qdiv. apply Qmult_0_l. }
  split; [apply Qlt_le_weak, Hpos|].
  split.
  { rewrite Ht. apply Qle_shift_div_r; [exact Hs|]. lra. }
  split; [reflexivity|]. split; [exact Hround|].
  rewrite Hround. apply Qlt_not_le. exact Hpos.
Qed.




(** * Further properties of the driver *)

(** ** Early returns *)

Section EarlyReturns.

Context {W : Type}.
Variable U : Utils.
Variable C : Collaborators W.

(** The range check of the threshold, as a test on the two comparisons. *)
Lemma threshold_in_range threshold :
  (0 <= threshold)%Q -> (threshold <= 1)%Q ->
  negb (Qle_bool threshold 1) || negb (Qle_bool 0 threshold) = false.
Proof.
  intros H0 H1. apply Qle_bool_iff in H0, H1. rewrite H0, H1. reflexivity.
Qed.

Lemma threshold_out_of_range threshold :
  (1 < threshold \/ threshold < 0)%Q ->
  negb (Qle_bool threshold 1) || negb (Qle_bool 0 threshold) = true.
Proof.
  intros Hout. apply orb_true_iff. destruct Hout as [H|H]; [left|right];
    apply negb_true_iff, not_true_is_false; rewrite Qle_bool_iff;
    intros Hle; exact (Qlt_not_le _ _ H Hle).
Qed.

(** An invocation on a JPEG input with a threshold in range, once the
    input is probed: the quality guess, the conversion, and then either
    the conversion's failure or the loop and its conclusion. *)
Lemma attempt_search fuel input threshold thresholdMultiplier start quiet verbose prior
      priorTrials (st : St W) s w1 q0 st2 r w3 :
  test (pngRegex U) input = false ->
  test (jpegRegex U) input = true ->
  (0 <= threshold)%Q -> (threshold <= 1)%Q ->
  statAsync C input (world st) = (Ok s, w1) ->
  guess_quality C input (clamp_start U start) prior (mkSt w1 (log st ++ [EvStat input]))
  = (q0, st2) ->
  convert C input (refPng (working_files U C input)) (world st2) = (r, w3) ->
  attempt U C fuel input threshold thresholdMultiplier start quiet verbose prior
          priorTrials st
  = match r with
    | Failed data =>
        Some (Done (Return false (RefFailed data)) (default ∅ priorTrials)
                   (mkSt w3 (log st2 ++ [EvConvert input (refPng (working_files U C input))])))
    | Ok _ =>
        conclude U C input (stat_size s) threshold thresholdMultiplier
        <$> loop U C fuel input (stat_size s) (working_files U C input) threshold quiet q0
                 (default ∅ priorTrials)
                 (mkSt w3 (log st2 ++ [EvConvert input (refPng (working_files U C input))]))
    end.
Proof.
  intros Hpng Hjpeg H0 H1 Hstat Hguess Hconv.
  unfold attempt. rewrite Hpng, Hjpeg. cbn [negb andb].
  rewrite (threshold_in_range threshold H0 H1).
  unfold stat. rewrite Hstat. fold (clamp_start U start).
  unfold guess_quality in Hguess. unfold emit. cbn [world log] in *.
  destruct prior.
  - injection Hguess as <- <-. cbn [world log] in *. rewrite Hconv.
    destruct r as [[]|data]; [|reflexivity].
    destruct (loop U C fuel _ _ _ _ _ _ _ _) as [[q sc sz t st'|msg t st']|];
      cbn [fmap option_fmap option_map conclude]; try reflexivity.
    destruct (passes threshold (stat_size s) sc sz); [|reflexivity].
    destruct (finish U C _ _ _ _ _ _) as [[o t2] st2]. reflexivity.
  - destruct (identify C input w1) as [g w2]. injection Hguess as <- <-.
    cbn [world log] in *. rewrite Hconv.
    destruct r as [[]|data]; [|reflexivity].
    destruct (loop U C fuel _ _ _ _ _ _ _ _) as [[q sc sz t st'|msg t st']|];
      cbn [fmap option_fmap option_map conclude]; try reflexivity.
    destruct (passes threshold (stat_size s) sc sz); [|reflexivity].
    destruct (finish U C _ _ _ _ _ _) as [[o t2] st2]. reflexivity.
Qed.

End EarlyReturns.

(** X1.  An input that neither pattern matches is refused with
    [false, "Input must be a JPEG or PNG image."]: no collaborator is
    called, whatever the other arguments and the fuel. *)
Theorem X1_unknown_format_is_refused {W} (U : Utils) (C : Collaborators W)
    fuel input threshold thresholdMultiplier start quiet verbose prior priorTrials (st : St W) :
  test (pngRegex U) input = false ->
  test (jpegRegex U) input = false ->
  webpRecompress U C fuel input threshold thresholdMultiplier start quiet verbose prior
                 priorTrials st
  = Some (Return false format_failure, default ∅ priorTrials, st).
Proof.
  intros Hpng Hjpeg. rewrite webpRecompress_unfold.
  unfold attempt. rewrite Hpng, Hjpeg. reflexivity.
Qed.

(** X1 at "notes.txt", with a threshold that is out of range as well. *)
Lemma X1_unknown_format_is_refused_witness :
  webpRecompress Sample.utils (Script.collaborators Sample.jpeg_unreadable) 0
                 "notes.txt" 7 (3 # 2) 75 false false false None Script.start
  = Some (Return false format_failure, ∅, Script.start).
Proof.
  apply (X1_unknown_format_is_refused Sample.utils
           (Script.collaborators Sample.jpeg_unreadable) 0 "notes.txt" 7 (3 # 2) 75
           false false false None Script.start).
  - reflexivity.
  - reflexivity.
Defined.

(** X2.  On a PNG input whose two probes and whose encode succeed, the
    call returns success with the two probed sizes (the input's, then the
    encoded file's), after exactly three collaborator calls: the probe of
    the input, cwebp at quality 100 writing to the input's name with the
    PNG pattern replaced by ".webp", and the probe of that file.  The
    fuel, the threshold and the start quality play no part. *)
Theorem X2_png_success_reports_probed_sizes {W} (U : Utils) (C : Collaborators W)
    fuel input threshold thresholdMultiplier start quiet verbose prior priorTrials
    (st : St W) s1 w1 w2 s3 w3 :
  test (pngRegex U) input = true ->
  statAsync C input (world st) = (Ok s1, w1) ->
  execFileAsync C [AStr "-q"; ANum 100; AStr "-mt"; AStr input; AStr "-o";
                   AStr (resolve C (replace (pngRegex U) input ".webp"))] w1
  = (Ok tt, w2) ->
  statAsync C (resolve C (replace (pngRegex U) input ".webp")) w2 = (Ok s3, w3) ->
  webpRecompress U C fuel input threshold thresholdMultiplier start quiet verbose prior
                 priorTrials st
  = Some (Return true (PngEncoded (stat_size s1) (Some (stat_size s3))),
          default ∅ priorTrials,
          mkSt w3 (log st ++ [EvStat input;
                              EvExecFile [AStr "-q"; ANum 100; AStr "-mt"; AStr input;
                                          AStr "-o";
                                          AStr (resolve C (replace (pngRegex U) input ".webp"))];
                              EvStat (resolve C (replace (pngRegex U) input ".webp"))])).
Proof.
  intros Hpng H1 H2 H3. rewrite (webpRecompress_png U C _ _ _ _ _ _ _ _ _ _ Hpng).
  unfold pngPath, stat, encodeWebp, encodeWebp_argv, emit. rewrite H1. cbn [world log].
  rewrite H2. cbn [world log]. rewrite H3. cbn [data_size fst snd world log].
  rewrite <- !app_assoc. reflexivity.
Qed.

(** X2 at "photo.png": 5000 bytes in, 3000 bytes out. *)
Lemma X2_png_success_reports_probed_sizes_witness :
  webpRecompress Sample.utils (Script.collaborators Sample.png_ok) 0
                 "photo.png" 7 (3 # 2) 75 false false false None Script.start
  = Some (Return true (PngEncoded 5000 (Some 3000)), ∅,
          mkSt 0%nat [EvStat "photo.png";
                      EvExecFile [AStr "-q"; ANum 100; AStr "-mt"; AStr "photo.png";
                                  AStr "-o"; AStr "photo.webp"];
                      EvStat "photo.webp"]).
Proof.
  apply (X2_png_success_reports_probed_sizes Sample.utils
           (Script.collaborators Sample.png_ok) 0 "photo.png" 7 (3 # 2) 75
           false false false None Script.start (mkStats 5000) 0%nat 0%nat (mkStats 3000) 0%nat).
  - reflexivity.
  - reflexivity.
  - reflexivity.
  - reflexivity.
Defined.

(** X3.  On a JPEG input with a threshold in range, a failed probe of the
    input ends the call with [false, "Couldn't get the size of JPEG
    input."] after that one call: no quality guess, no conversion, no
    trial. *)
Theorem X3_jpeg_size_probe_failure {W} (U : Utils) (C : Collaborators W)
    fuel input threshold thresholdMultiplier start quiet verbose prior priorTrials
    (st : St W) d w1 :
  test (pngRegex U) input = false ->
  test (jpegRegex U) input = true ->
  (0 <= threshold)%Q -> (threshold <= 1)%Q ->
  statAsync C input (world st) = (Failed d, w1) ->
  webpRecompress U C fuel input threshold thresholdMultiplier start quiet verbose prior
                 priorTrials st
  = Some (Return false size_failure_jpeg, default ∅ priorTrials,
          mkSt w1 (log st ++ [EvStat input])).
Proof.
  intros Hpng Hjpeg H0 H1 Hstat. rewrite webpRecompress_unfold.
  unfold attempt. rewrite Hpng, Hjpeg. cbn [negb andb].
  rewrite (threshold_in_range threshold H0 H1).
  unfold stat. rewrite Hstat. reflexivity.
Qed.

(** X3 at a "photo.jpg" that does not exist. *)
Lemma X3_jpeg_size_probe_failure_witness :
  webpRecompress Sample.utils (Script.collaborators Sample.jpeg_unreadable) 0
                 "photo.jpg" (1 # 100) (3 # 2) 75 false false false None Script.start
  = Some (Return false size_failure_jpeg, ∅, mkSt 0%nat [EvStat "photo.jpg"]).
Proof.
  apply (X3_jpeg_size_probe_failure Sample.utils
           (Script.collaborators Sample.jpeg_unreadable) 0 "photo.jpg" (1 # 100) (3 # 2) 75
           false false false None Script.start
           (Js.ErrorObj "ENOENT: no such file or directory") 0%nat).
  - reflexivity.
  - reflexivity.
  - discriminate.
  - discriminate.
  - reflexivity.
Defined.

(** X4.  On a JPEG input, a failed conversion to the reference PNG ends
    the call with [false, "Couldn't create a PNG reference ...: data"],
    where [data] is what the failed conversion handed over; the input has
    been probed and, on a fresh call, the quality guessed, but no trial is
    run and nothing is cleaned up. *)
Theorem X4_conversion_failure {W} (U : Utils) (C : Collaborators W)
    fuel input threshold thresholdMultiplier start quiet verbose prior priorTrials
    (st : St W) s w1 q0 st2 data w3 :
  test (pngRegex U) input = false ->
  test (jpegRegex U) input = true ->
  (0 <= threshold)%Q -> (threshold <= 1)%Q ->
  statAsync C input (world st) = (Ok s, w1) ->
  guess_quality C input (clamp_start U start) prior (mkSt w1 (log st ++ [EvStat input]))
  = (q0, st2) ->
  convert C input (refPng (working_files U C input)) (world st2) = (Failed data, w3) ->
  webpRecompress U C fuel input threshold thresholdMultiplier start quiet verbose prior
                 priorTrials st
  = Some (Return false (RefFailed data), default ∅ priorTrials,
          mkSt w3 (log st ++ EvStat input
                          :: (if prior then [] else [EvIdentify input])
                          ++ [EvConvert input (refPng (working_files U C input))])).
Proof.
  intros Hpng Hjpeg H0 H1 Hstat Hguess Hconv. rewrite webpRecompress_unfold.
  rewrite (attempt_search U C fuel input threshold thresholdMultiplier start quiet verbose
             prior priorTrials st s w1 q0 st2 _ w3 Hpng Hjpeg H0 H1 Hstat Hguess Hconv).
  unfold guess_quality in Hguess. destruct prior.
  - injection Hguess as <- <-. cbn [log app]. rewrite <- app_assoc. reflexivity.
  - cbn [world] in Hguess. destruct (identify C input w1) as [g w2].
    injection Hguess as <- <-. cbn [log app]. rewrite <- !app_assoc. reflexivity.
Qed.

(** X4 at a "photo.jpg" that the converter cannot read. *)
Lemma X4_conversion_failure_witness :
  webpRecompress Sample.utils (Script.collaborators Sample.jpeg_no_reference) 0
                 "photo.jpg" (1 # 100) (3 # 2) 75 false false false None Script.start
  = Some (Return false (RefFailed (Js.Str "convert: no decode delegate")), ∅,
          mkSt 0%nat [EvStat "photo.jpg"; EvIdentify "photo.jpg";
                      EvConvert "photo.jpg" "photo.png"]).
Proof.
  apply (X4_conversion_failure Sample.utils
           (Script.collaborators Sample.jpeg_no_reference) 0 "photo.jpg" (1 # 100) (3 # 2) 75
           false false false None Script.start (mkStats 100000) 0%nat 80
           (mkSt 0%nat [EvStat "photo.jpg"; EvIdentify "photo.jpg"])
           (Js.Str "convert: no decode delegate") 0%nat).
  - reflexivity.
  - reflexivity.
  - discriminate.
  - discriminate.
  - reflexivity.
  - reflexivity.
  - reflexivity.
Defined.

(** ** Where the search starts *)

(** X5.  On a fresh call ([prior] unset) the quality guess is asked once,
    after the probe of the input and before the conversion.  When it
    answers, the search starts at the guessed quality, as it is: the start
    argument plays no part and the guess is not clamped.  When it fails,
    the search starts at the start argument, clamped if it lies outside
    [0,100]. *)
Theorem X5_fresh_call_starts_at_guess {W} (U : Utils) (C : Collaborators W)
    fuel input threshold thresholdMultiplier start quiet verbose priorTrials
    (st : St W) s w1 g w2 w3 :
  test (pngRegex U) input = false ->
  test (jpegRegex U) input = true ->
  (0 <= threshold)%Q -> (threshold <= 1)%Q ->
  statAsync C input (world st) = (Ok s, w1) ->
  identify C input w1 = (g, w2) ->
  convert C input (refPng (working_files U C input)) w2 = (Ok tt, w3) ->
  attempt U C fuel input threshold thresholdMultiplier start quiet verbose false
          priorTrials st
  = conclude U C input (stat_size s) threshold thresholdMultiplier
    <$> loop U C fuel input (stat_size s) (working_files U C input) threshold quiet
             (match g with
              | Ok q => q
              | Failed _ => if (100 <? start) || (start <? 0) then clampQuality U start else start
              end)
             (default ∅ priorTrials)
             (mkSt w3 (log st ++ [EvStat input; EvIdentify input;
                                  EvConvert input (refPng (working_files U C input))])).
Proof.
  intros Hpng Hjpeg H0 H1 Hstat Hid Hconv.
  rewrite (attempt_search U C fuel input threshold thresholdMultiplier start quiet verbose
             false priorTrials st s w1
             (match g with Ok q => q | Failed _ => clamp_start U start end)
             (mkSt w2 ((log st ++ [EvStat input]) ++ [EvIdentify input])) (Ok tt) w3
             Hpng Hjpeg H0 H1 Hstat).
  - cbn [log]. rewrite <- !app_assoc. reflexivity.
  - unfold guess_quality. cbn [world log]. rewrite Hid. reflexivity.
  - exact Hconv.
Qed.

(** X5 at a JPEG guessed at quality 80, called with the start value 300:
    the search runs from 80. *)
Lemma X5_fresh_call_starts_at_guess_witness :
  attempt Sample.utils (Script.collaborators Sample.jpeg_first_try) 5
          "photo.jpg" (2 # 100) (3 # 2) 300 false false false None Script.start
  = conclude Sample.utils (Script.collaborators Sample.jpeg_first_try) "photo.jpg" 100000
             (2 # 100) (3 # 2)
    <$> loop Sample.utils (Script.collaborators Sample.jpeg_first_try) 5 "photo.jpg" 100000
             (mkFiles "photo.png" "photo.webp" "photo-webp.png") (2 # 100) false 80 ∅
             (mkSt 0%nat [EvStat "photo.jpg"; EvIdentify "photo.jpg";
                          EvConvert "photo.jpg" "photo.png"]).
Proof.
  apply (X5_fresh_call_starts_at_guess Sample.utils
           (Script.collaborators Sample.jpeg_first_try) 5 "photo.jpg" (2 # 100) (3 # 2) 300
           false false None Script.start (mkStats 100000) 0%nat (Ok 80) 0%nat 0%nat).
  - reflexivity.
  - reflexivity.
  - discriminate.
  - discriminate.
  - reflexivity.
  - reflexivity.
  - reflexivity.
Defined.

(** X6.  On a call with [prior] set (as the self-call of a retry is) the
    quality guess is not asked: after the probe of the input and the
    conversion, the search starts at the start argument, clamped if it lies
    outside [0,100], from the table handed in. *)
Theorem X6_retry_starts_at_clamped_start {W} (U : Utils) (C : Collaborators W)
    fuel input threshold thresholdMultiplier start quiet verbose priorTrials
    (st : St W) s w1 w3 :
  test (pngRegex U) input = false ->
  test (jpegRegex U) input = true ->
  (0 <= threshold)%Q -> (threshold <= 1)%Q ->
  statAsync C input (world st) = (Ok s, w1) ->
  convert C input (refPng (working_files U C input)) w1 = (Ok tt, w3) ->
  attempt U C fuel input threshold thresholdMultiplier start quiet verbose true
          priorTrials st
  = conclude U C input (stat_size s) threshold thresholdMultiplier
    <$> loop U C fuel input (stat_size s) (working_files U C input) threshold quiet
             (if (100 <? start) || (start <? 0) then clampQuality U start else start)
             (default ∅ priorTrials)
             (mkSt w3 (log st ++ [EvStat input;
                                  EvConvert input (refPng (working_files U C input))])).
Proof.
  intros Hpng Hjpeg H0 H1 Hstat Hconv.
  rewrite (attempt_search U C fuel input threshold thresholdMultiplier start quiet verbose
             true priorTrials st s w1 (clamp_start U start)
             (mkSt w1 (log st ++ [EvStat input])) (Ok tt) w3
             Hpng Hjpeg H0 H1 Hstat).
  - cbn [log]. rewrite <- !app_assoc. reflexivity.
  - reflexivity.
  - exact Hconv.
Qed.

(** X6 at a retry handed the start value 102 and a table: the search
    runs from 100. *)
Lemma X6_retry_starts_at_clamped_start_witness :
  attempt Sample.utils (Script.collaborators Sample.jpeg_first_try) 5
          "photo.jpg" (2 # 100) (3 # 2) 102 false false true (Some Sample.earlier_trials)
          Script.start
  = conclude Sample.utils (Script.collaborators Sample.jpeg_first_try) "photo.jpg" 100000
             (2 # 100) (3 # 2)
    <$> loop Sample.utils (Script.collaborators Sample.jpeg_first_try) 5 "photo.jpg" 100000
             (mkFiles "photo.png" "photo.webp" "photo-webp.png") (2 # 100) false 100
             Sample.earlier_trials
             (mkSt 0%nat [EvStat "photo.jpg"; EvConvert "photo.jpg" "photo.png"]).
Proof.
  apply (X6_retry_starts_at_clamped_start Sample.utils
           (Script.collaborators Sample.jpeg_first_try) 5 "photo.jpg" (2 # 100) (3 # 2) 102
           false false (Some Sample.earlier_trials) Script.start (mkStats 100000)
           0%nat 0%nat).
  - reflexivity.
  - reflexivity.
  - discriminate.
  - discriminate.
  - reflexivity.
  - reflexivity.
Defined.

(** ** The loop *)

Section LoopShape.

Context {W : Type}.
Variable U : Utils.
Variable C : Collaborators W.

(** The body hands over to the loop condition only after a size
    regression or a score above the threshold. *)
Lemma body_again_cond input inputSize files threshold quiet quality trials (st : St W)
      q' score size trials' st' :
  body U C input inputSize files threshold quiet quality trials st
  = Again q' score size trials' st' ->
  while_cond threshold inputSize score size = true.
Proof.
  unfold body, run_trial, while_cond.
  destruct (trial C _ _ _ _ _ _ _) as [[[sc sz|data] t'] w']; [|discriminate].
  destruct (3 <? _)%nat; [discriminate|].
  destruct (inputSize <=? sz) eqn:Hsz.
  - intros [= _ <- <- _ _]. rewrite Hsz. apply orb_true_r.
  - destruct (Qle_bool sc threshold) eqn:Hsc; [discriminate|].
    intros [= _ <- <- _ _]. cbn [Js.gt]. rewrite Hsc. reflexivity.
Qed.

(** How the body leaves the loop: by the escape, with more than three
    attempts at the quality probed and the quality moved by two, or by
    convergence, with a passing score and size and the quality kept. *)
Lemma body_leave_cases input inputSize files threshold quiet quality trials (st : St W)
      q' score size trials' st' :
  body U C input inputSize files threshold quiet quality trials st
  = Leave q' score size trials' st' ->
  ((3 < attempts_at quality trials')%nat
   /\ q' = if inputSize <=? size then quality - 2 else quality + 2)
  \/ (passes threshold inputSize score size = true /\ q' = quality).
Proof.
  unfold body, run_trial, passes.
  destruct (trial C _ _ _ _ _ _ _) as [[[sc sz|data] t'] w']; [|discriminate].
  destruct (3 <? _)%nat eqn:Hcap.
  - intros [= <- <- <- <- _]. left. apply Nat.ltb_lt in Hcap. split; [exact Hcap | reflexivity].
  - destruct (inputSize <=? sz) eqn:Hsz; [discriminate|].
    destruct (Qle_bool sc threshold) eqn:Hsc; [|discriminate].
    intros [= <- <- <- _ _]. right. rewrite Hsc.
    apply Z.leb_gt, Z.ltb_lt in Hsz. rewrite Hsz. split; reflexivity.
Qed.

Lemma loop_failed_exit fuel input inputSize files threshold quiet :
  forall quality trials (st : St W) q score size trials' st',
    loop U C fuel input inputSize files threshold quiet quality trials st
    = Some (Exited q score size trials' st') ->
    passes threshold inputSize score size = false ->
    exists qp,
      (3 < attempts_at qp trials')%nat
      /\ q = if inputSize <=? size then qp - 2 else qp + 2.
Proof.
  induction fuel as [|fuel IH]; intros quality trials st q score size trials' st';
    [discriminate|].
  rewrite loop_S.
  destruct (body U C _ _ _ _ _ _ _ _) as [q1 sc1 sz1 t1 st1|q1 sc1 sz1 t1 st1|msg t1 st1]
    eqn:Hb.
  - rewrite (body_again_cond _ _ _ _ _ _ _ _ _ _ _ _ _ Hb). apply IH.
  - intros [= <- <- <- <- <-] Hp.
    destruct (body_leave_cases _ _ _ _ _ _ _ _ _ _ _ _ _ Hb) as [[Hcap Hq]|[Hpass _]].
    + exists quality. split; assumption.
    + rewrite Hpass in Hp. discriminate.
  - discriminate.
Qed.

End LoopShape.

(** With a NaN on either side neither comparison holds; on two numbers
    one of them does. *)
Example nan_compares_false (b : Js.number) :
  Js.le Js.NaN b = false /\ Js.gt Js.NaN b = false
  /\ Js.le b Js.NaN = false /\ Js.gt b Js.NaN = false.
Proof. destruct b; repeat split; reflexivity. Qed.

Example numbers_compare (a b : Q) :
  Js.gt (Js.Num a) (Js.Num b) = negb (Js.le (Js.Num a) (Js.Num b)).
Proof. reflexivity. Qed.

(** X7.  As long as the scores of the trials and the threshold are
    numbers (a score or a threshold that is NaN is excluded: neither
    [score <= threshold] nor [score > threshold] holds of it), the
    condition of the do-while never ends the loop: whenever it is reached,
    by [continue] or at the end of the body, it holds.  The loop then ends
    only by a [break] (escape or convergence) or by the [return] of a
    failed trial. *)
Theorem X7_loop_ends_only_by_break_or_return {W} (U : Utils) (C : Collaborators W)
    fuel input inputSize files threshold quiet quality (trials : Trials) (st : St W) :
  loop U C (S fuel) input inputSize files threshold quiet quality trials st
  = match body U C input inputSize files threshold quiet quality trials st with
    | Bail msg trials st => Some (Aborted msg trials st)
    | Leave quality score size trials st => Some (Exited quality score size trials st)
    | Again quality _ _ trials st =>
        loop U C fuel input inputSize files threshold quiet quality trials st
    end.
Proof.
  rewrite loop_S.
  destruct (body U C _ _ _ _ _ _ _ _) as [q1 sc1 sz1 t1 st1|q1 sc1 sz1 t1 st1|msg t1 st1]
    eqn:Hb; try reflexivity.
  rewrite (body_again_cond U C _ _ _ _ _ _ _ _ _ _ _ _ _ Hb). reflexivity.
Qed.

(** X8.  As long as the scores of the trials and the threshold are
    numbers (a score or a threshold that is NaN is excluded), an
    invocation calls itself again only after the escape: when it ends in
    a retry, the table holds an entry with more than three attempts, and
    the retry starts two below that entry's quality if the last size was
    not below the input size, and two above it otherwise. *)
Theorem X8_retry_only_after_escape {W} (U : Utils) (C : Collaborators W)
    fuel input threshold thresholdMultiplier start quiet verbose prior priorTrials
    (st : St W) threshold' start' trials' st' :
  attempt U C fuel input threshold thresholdMultiplier start quiet verbose prior
          priorTrials st = Some (Retry threshold' start' trials' st') ->
  exists qp, (3 < attempts_at qp trials')%nat /\ (start' = qp - 2 \/ start' = qp + 2).
Proof.
  intros Ha.
  destruct (attempt_inv U C _ _ _ _ _ _ _ _ _ _ _ Ha)
    as [(o & st1 & pre & [=] & _)
       |(inputSize & q0 & st0 & pre & e & _ & _ & _ & _ & El & Hc)].
  unfold conclude in Hc.
  destruct e as [q sc sz t1 st1|msg t1 st1]; [|discriminate].
  destruct (passes threshold inputSize sc sz) eqn:Hp.
  { destruct (finish U C _ _ _ _ _ _) as [[o t2] st2]. discriminate. }
  injection Hc as -> -> -> ->.
  destruct (loop_failed_exit U C _ _ _ _ _ _ _ _ _ _ _ _ _ _ El Hp) as (qp & Hcap & Hq).
  exists qp. split; [exact Hcap|].
  destruct (inputSize <=? sz); [left|right]; exact Hq.
Qed.

(** X8 at the search that is stuck at quality 100: four attempts there,
    and the retry starts at 102. *)
Lemma X8_retry_only_after_escape_witness :
  exists threshold' start' trials' st',
    attempt Sample.utils (Script.collaborators Sample.jpeg_stuck) 4
            "photo.jpg" (1 # 100) (3 # 2) 75 false false false None Script.start
    = Some (Retry threshold' start' trials' st')
    /\ exists qp, (3 < attempts_at qp trials')%nat /\ (start' = qp - 2 \/ start' = qp + 2).
Proof.
  eexists _, _, _, _. split; [vm_compute; reflexivity|].
  eapply (X8_retry_only_after_escape Sample.utils
            (Script.collaborators Sample.jpeg_stuck) 4 "photo.jpg" (1 # 100) (3 # 2) 75
            false false false None Script.start).
  vm_compute. reflexivity.
Defined.

(** X9.  The escape comes before the decision ladder.  A successful
    probe at a quality whose entry already counts three attempts or more
    ends the loop at once, whatever its score and size: the entry counts
    one attempt more and keeps its score and size, and the quality moves
    by -2 if [size >= inputSize] and by +2 otherwise, also when the probe
    would pass. *)
Theorem X9_escape_precedes_ladder {W} (U : Utils) (C : Collaborators W)
    fuel input inputSize files threshold quiet quality (trials : Trials) (st : St W)
    score size trials1 w1 r :
  trial C input inputSize files (Some quality) quiet trials (world st)
  = (TrialOk score size, trials1, w1) ->
  trials1 !! quality = Some r ->
  (3 <= TrialRecord.attempts r)%nat ->
  loop U C (S fuel) input inputSize files threshold quiet quality trials st
  = Some (Exited (if inputSize <=? size then quality - 2 else quality + 2) score size
                 (<[quality := TrialRecord.mk (TrialRecord.score r) (TrialRecord.size r)
                                              (S (TrialRecord.attempts r))]> trials1)
                 (mkSt w1 (log st ++ [EvTrial Probe (Some quality) quiet (TrialOk score size)]))).
Proof.
  intros Ht Hr Hcap. rewrite loop_S. unfold body, run_trial. rewrite Ht.
  rewrite record_attempt_insert, Hr, attempts_at_insert.
  cbn [TrialRecord.bump TrialRecord.attempts].
  assert ((3 <? S (TrialRecord.attempts r))%nat = true) as -> by (apply Nat.ltb_lt; lia).
  reflexivity.
Qed.

(** X9 at quality 100, tried three times before: a probe that passes
    (score 0.01, 60000 bytes for an input of 100000) still escapes to 102. *)
Lemma X9_escape_precedes_ladder_witness :
  loop Sample.utils (Script.collaborators Sample.jpeg_first_try) 1 "photo.jpg" 100000
       (mkFiles "photo.png" "photo.webp" "photo-webp.png") (2 # 100) false 100
       Sample.earlier_trials Script.start
  = Some (Exited 102 (1 # 100) 60000
                 (<[100 := TrialRecord.mk (1 # 2) 50 4]> Sample.earlier_trials)
                 (mkSt 1%nat [EvTrial Probe (Some 100) false (TrialOk (1 # 100) 60000)])).
Proof.
  apply (X9_escape_precedes_ladder Sample.utils
           (Script.collaborators Sample.jpeg_first_try) 0 "photo.jpg" 100000
           (mkFiles "photo.png" "photo.webp" "photo-webp.png") (2 # 100) false 100
           Sample.earlier_trials Script.start (1 # 100) 60000 Sample.earlier_trials 1%nat
           (TrialRecord.mk (1 # 2) 50 3)).
  - reflexivity.
  - reflexivity.
  - simpl. lia.
Defined.

(** X10.  A probe that passes below the attempt cap ends the loop at
    once with the quality unchanged: one probe, the attempt recorded, and
    the score and size of that probe handed on. *)
Theorem X10_passing_probe_converges {W} (U : Utils) (C : Collaborators W)
    fuel input inputSize files threshold quiet quality (trials : Trials) (st : St W)
    score size trials1 w1 :
  trial C input inputSize files (Some quality) quiet trials (world st)
  = (TrialOk score size, trials1, w1) ->
  (attempts_at quality trials1 < 3)%nat ->
  (score <= threshold)%Q ->
  size < inputSize ->
  loop U C (S fuel) input inputSize files threshold quiet quality trials st
  = Some (Exited quality score size (record_attempt quality score size trials1)
                 (mkSt w1 (log st ++ [EvTrial Probe (Some quality) quiet (TrialOk score size)])))
  /\ attempts_at quality (record_attempt quality score size trials1)
     = S (attempts_at quality trials1).
Proof.
  intros Ht Hcap Hsc Hsz.
  assert (Hat : attempts_at quality (record_attempt quality score size trials1)
                = S (attempts_at quality trials1)).
  { rewrite record_attempt_insert, attempts_at_insert. unfold attempts_at.
    destruct (trials1 !! quality); reflexivity. }
  split; [|exact Hat].
  rewrite loop_S. unfold body, run_trial. rewrite Ht, Hat.
  assert ((3 <? S (attempts_at quality trials1))%nat = false) as ->
      by (apply Nat.ltb_ge; lia).
  assert ((inputSize <=? size) = false) as -> by (apply Z.leb_gt; exact Hsz).
  apply Qle_bool_iff in Hsc. rewrite Hsc. reflexivity.
Qed.

(** X10 at a first probe at quality 80 with score 0.01 and 60000 bytes,
    for an input of 100000 bytes and the threshold 0.02. *)
Lemma X10_passing_probe_converges_witness :
  loop Sample.utils (Script.collaborators Sample.jpeg_first_try) 1 "photo.jpg" 100000
       (mkFiles "photo.png" "photo.webp" "photo-webp.png") (2 # 100) false 80 ∅
       Script.start
  = Some (Exited 80 (1 # 100) 60000 (record_attempt 80 (1 # 100) 60000 ∅)
                 (mkSt 1%nat [EvTrial Probe (Some 80) false (TrialOk (1 # 100) 60000)]))
  /\ attempts_at 80 (record_attempt 80 (1 # 100) 60000 ∅) = S (attempts_at 80 ∅).
Proof.
  apply (X10_passing_probe_converges Sample.utils
           (Script.collaborators Sample.jpeg_first_try) 0 "photo.jpg" 100000
           (mkFiles "photo.png" "photo.webp" "photo-webp.png") (2 # 100) false 80 ∅
           Script.start (1 # 100) 60000 ∅ 1%nat).
  - reflexivity.
  - vm_compute. lia.
  - discriminate.
  - lia.
Defined.

(** X11.  A probe that fails ends the invocation at once: the loop
    returns after that one trial, and the invocation concludes with
    [false, "Couldn't run image trial: data"], where [data] is the detail
    the trial handed over; the attempt is not recorded and no other
    collaborator is called. *)
Theorem X11_failed_probe_ends_invocation {W} (U : Utils) (C : Collaborators W)
    fuel input inputSize threshold thresholdMultiplier quiet quality (trials : Trials)
    (st : St W) data trials1 w1 :
  trial C input inputSize (working_files U C input) (Some quality) quiet trials (world st)
  = (TrialFail data, trials1, w1) ->
  conclude U C input inputSize threshold thresholdMultiplier
  <$> loop U C (S fuel) input inputSize (working_files U C input) threshold quiet quality
           trials st
  = Some (Done (Return false (TrialFailed data)) trials1
               (mkSt w1 (log st ++ [EvTrial Probe (Some quality) quiet (TrialFail data)]))).
Proof.
  intros Ht. rewrite loop_S. unfold body, run_trial. rewrite Ht. reflexivity.
Qed.

(** X11 at a first probe that fails. *)
Lemma X11_failed_probe_ends_invocation_witness :
  conclude Sample.utils (Script.collaborators Sample.jpeg_trial_fails) "photo.jpg" 100000
           (2 # 100) (3 # 2)
  <$> loop Sample.utils (Script.collaborators Sample.jpeg_trial_fails) 1 "photo.jpg" 100000
           (working_files Sample.utils (Script.collaborators Sample.jpeg_trial_fails)
                          "photo.jpg")
           (2 # 100) false 80 ∅ Script.start
  = Some (Done (Return false (TrialFailed (Js.Str "Couldn't encode WebP."))) ∅
               (mkSt 1%nat [EvTrial Probe (Some 80) false
                                    (TrialFail (Js.Str "Couldn't encode WebP."))])).
Proof.
  apply (X11_failed_probe_ends_invocation Sample.utils
           (Script.collaborators Sample.jpeg_trial_fails) 0 "photo.jpg" 100000
           (2 # 100) (3 # 2) false 80 ∅ Script.start (Js.Str "Couldn't encode WebP.") ∅ 1%nat).
  reflexivity.
Defined.

(** ** The calls of a search, in order *)

Section Trace.

Context {W : Type}.
Variable U : Utils.
Variable C : Collaborators W.

(** The PNG branch never reports a candidate. *)
Lemma pngPath_no_candidate input (st : St W) q i s :
  (pngPath U C input st).1 <> Return true (CandidateFound q i s).
Proof.
  unfold pngPath.
  destruct (stat C input st) as [[?|?] ?]; [|discriminate].
  destruct (encodeWebp C _ _ _ _) as [[?|?] ?]; [|discriminate].
  destruct (stat C _ _) as [r3 ?].
  destruct (data_size r3); [|discriminate].
  destruct r3; discriminate.
Qed.

Lemma closing_nil input (o : Outcome) (trials : Trials) (st : St W) :
  (forall q i s, o <> Return true (CandidateFound q i s)) ->
  closing U C input (Done o trials st) [].
Proof.
  intros Hno. destruct o as [[] [| | | |q i s]|]; try reflexivity.
  destruct (Hno q i s eq_refl).
Qed.

(** One pass through the body makes one call, the probe at the quality
    it was entered with. *)
Lemma body_log input inputSize files threshold quiet quality trials (st : St W) :
  exists out w',
    step_st (body U C input inputSize files threshold quiet quality trials st)
    = mkSt w' (log st ++ [EvTrial Probe (Some quality) quiet out]).
Proof.
  unfold body, run_trial, emit.
  destruct (trial C _ _ _ _ _ _ _) as [[out t'] w']. exists out, w'.
  destruct out as [sc sz|data]; [|reflexivity].
  destruct (3 <? _)%nat; [reflexivity|].
  destruct (inputSize <=? sz); [reflexivity|].
  destruct (Qle_bool sc threshold); reflexivity.
Qed.

(** Where the body sends the loop next: one interval down, or one
    interval up and clamped. *)
Lemma body_again_quality input inputSize files threshold quiet quality trials (st : St W)
      q' score size trials' st' :
  body U C input inputSize files threshold quiet quality trials st
  = Again q' score size trials' st' ->
  q' = quality - getQualityInterval U score threshold quality
  \/ q' = clampQuality U (quality + getQualityInterval U score threshold quality).
Proof.
  unfold body, run_trial.
  destruct (trial C _ _ _ _ _ _ _) as [[[sc sz|data] t'] w']; [|discriminate].
  destruct (3 <? _)%nat; [discriminate|].
  destruct (inputSize <=? sz).
  - intros [= <- <- _ _ _]. left. reflexivity.
  - destruct (Qle_bool sc threshold); [discriminate|].
    intros [= <- <- _ _ _]. right. reflexivity.
Qed.

(** The calls of the loop are probes, at qualities within any set that
    holds the first quality and is closed under the two moves. *)
Lemma loop_trace (P : Z -> Prop) fuel input inputSize files threshold quiet :
  (forall q score, P q ->
     P (q - getQualityInterval U score threshold q)
     /\ P (clampQuality U (q + getQualityInterval U score threshold q))) ->
  forall quality trials (st : St W) e,
    P quality ->
    loop U C fuel input inputSize files threshold quiet quality trials st = Some e ->
    exists probes,
      log (exit_st e) = log st ++ probes
      /\ forallb is_probe probes = true
      /\ Forall (probe_within P) probes.
Proof.
  intros Hmove.
  induction fuel as [|fuel IH]; intros quality trials st e HP; [discriminate|].
  rewrite loop_S.
  destruct (body_log input inputSize files threshold quiet quality trials st)
    as (out & w' & Hlog).
  assert (Hone : forallb is_probe [EvTrial Probe (Some quality) quiet out] = true
                 /\ Forall (probe_within P) [EvTrial Probe (Some quality) quiet out]).
  { split; [reflexivity|]. constructor; [exact HP | constructor]. }
  destruct (body U C _ _ _ _ _ _ _ _) as [q1 sc1 sz1 t1 st1|q1 sc1 sz1 t1 st1|msg t1 st1]
    eqn:Hb; cbn [step_st] in Hlog.
  - assert (HP1 : P q1).
    { destruct (body_again_quality _ _ _ _ _ _ _ _ _ _ _ _ _ Hb) as [->| ->];
        apply Hmove; exact HP. }
    destruct (while_cond threshold inputSize sc1 sz1).
    + intros Hl. destruct (IH _ _ _ _ HP1 Hl) as (probes & Hp & Hall & Hin).
      exists (EvTrial Probe (Some quality) quiet out :: probes).
      rewrite Hp, Hlog. cbn [log]. rewrite <- app_assoc.
      split; [reflexivity|]. split; [exact Hall|].
      constructor; [exact HP | exact Hin].
    + intros [= <-]. exists [EvTrial Probe (Some quality) quiet out].
      cbn [exit_st]. rewrite Hlog. split; [reflexivity | exact Hone].
  - intros [= <-]. exists [EvTrial Probe (Some quality) quiet out].
    cbn [exit_st]. rewrite Hlog. split; [reflexivity | exact Hone].
  - intros [= <-]. exists [EvTrial Probe (Some quality) quiet out].
    cbn [exit_st]. rewrite Hlog. split; [reflexivity | exact Hone].
Qed.

(** What follows the loop: the confirming trial and the cleanup when the
    invocation reports a candidate, nothing otherwise. *)
Lemma conclude_trace input inputSize threshold thresholdMultiplier (e : @LoopExit W) :
  exists post,
    log (attempt_st (conclude U C input inputSize threshold thresholdMultiplier e))
    = log (exit_st e) ++ post
    /\ closing U C input (conclude U C input inputSize threshold thresholdMultiplier e) post.
Proof.
  destruct e as [q sc sz trials st|msg trials st]; cbn [conclude exit_st].
  2:{ exists []. rewrite app_nil_r. split; reflexivity. }
  destruct (passes threshold inputSize sc sz).
  2:{ exists []. rewrite app_nil_r. split; reflexivity. }
  pose proof (finish_outcome U C input inputSize (working_files U C input) sc trials st) as Ho.
  destruct (finish_log U C input inputSize (working_files U C input) sc trials st)
    as [out Hl].
  destruct (finish U C _ _ _ _ _ _) as [[o t2] st2]. cbn [fst snd] in Ho, Hl. subst o.
  eexists. split; [exact Hl|]. cbn [closing]. exists out. reflexivity.
Qed.

(** An invocation either returns before its loop, after calls that are
    all probes of files or runs of cwebp, or runs its preamble, then the
    loop, and concludes. *)
Lemma attempt_inv_pre fuel input threshold thresholdMultiplier start quiet verbose prior
      priorTrials (st : St W) a :
  attempt U C fuel input threshold thresholdMultiplier start quiet verbose prior
          priorTrials st = Some a ->
  (exists o st' pre,
      a = Done o (default ∅ priorTrials) st'
      /\ log st' = log st ++ pre
      /\ forallb is_setup pre = true
      /\ (length (List.filter is_identify pre) <= if prior then 0 else 1)%nat
      /\ (test (pngRegex U) input = false ->
          forallb (fun e => negb (is_exec e)) pre = true)
      /\ forall q i s, o <> Return true (CandidateFound q i s))
  \/ (test (pngRegex U) input = false
      /\ exists inputSize quality0 st0 e,
          log st0 = log st ++ preamble U C input prior
          /\ loop U C fuel input inputSize (working_files U C input) threshold quiet
                  quality0 (default ∅ priorTrials) st0 = Some e
          /\ a = conclude U C input inputSize threshold thresholdMultiplier e).
Proof.
  unfold attempt.
  destruct (test (pngRegex U) input) eqn:Hpng.
  { pose proof (pngPath_log U C input st) as Hlog. cbv zeta in Hlog.
    pose proof (pngPath_no_candidate input st) as Hno.
    destruct (pngPath U C input st) as [o st'] eqn:E. cbn [fst snd] in Hlog, Hno.
    intros [= <-]. left. exists o, st'.
    destruct Hlog as [[_ Hl]|[[_ Hl]|Hl]]; eexists; (split; [reflexivity|]);
      (split; [exact Hl|]); (split; [reflexivity|]);
      (split; [destruct prior; simpl; lia|]); (split; [discriminate | exact Hno]). }
  destruct (negb (test (jpegRegex U) input) && negb false).
  { intros [= <-]. left. exists (Return false format_failure), st, [].
    rewrite app_nil_r. split; [reflexivity|]. split; [reflexivity|].
    split; [reflexivity|]. split; [destruct prior; simpl; lia|].
    split; [reflexivity | discriminate]. }
  destruct (negb (Qle_bool threshold 1) || negb (Qle_bool 0 threshold)).
  { intros [= <-]. left. exists (Return false threshold_failure), st, [].
    rewrite app_nil_r. split; [reflexivity|]. split; [reflexivity|].
    split; [reflexivity|]. split; [destruct prior; simpl; lia|].
    split; [reflexivity | discriminate]. }
  unfold stat.
  destruct (statAsync C input (world st)) as [[s|d] w1].
  2:{ intros [= <-]. left. eexists _, _, [EvStat input].
      split; [reflexivity|]. split; [reflexivity|]. split; [reflexivity|].
      split; [destruct prior; simpl; lia|]. split; [reflexivity | discriminate]. }
  set (start' := if (100 <? start) || (start <? 0) then clampQuality U start else start).
  unfold preamble.
  destruct prior.
  - cbn [world log emit].
    destruct (convert C input _ w1) as [[[]|d] w2].
    2:{ intros [= <-]. left. eexists _, _, [EvStat input; EvConvert input _].
        split; [reflexivity|].
        split; [unfold emit; cbn [log]; rewrite <- app_assoc; reflexivity|].
        split; [reflexivity|]. split; [simpl; lia|]. split; [reflexivity | discriminate]. }
    destruct (loop U C fuel _ _ _ _ _ _ _ _) as [e|] eqn:El; [|discriminate].
    intros Ha. right. split; [reflexivity|].
    exists (stat_size s), start',
      (emit (EvConvert input (refPng (working_files U C input))) w2
            (emit (EvStat input) w1 st)), e.
    split; [unfold emit; cbn [log app]; rewrite <- app_assoc; reflexivity|].
    split; [exact El|]. unfold conclude.
    destruct e as [q' sc sz t' st'|msg t' st']; [|injection Ha as <-; reflexivity].
    destruct (passes threshold (stat_size s) sc sz); [|injection Ha as <-; reflexivity].
    destruct (finish U C _ _ _ _ _ _) as [[o t2] st2]. injection Ha as <-. reflexivity.
  - destruct (identify C input _) as [g w2]. cbn [world log emit].
    destruct (convert C input _ w2) as [[[]|d] w3].
    2:{ intros [= <-]. left.
        eexists _, _, [EvStat input; EvIdentify input; EvConvert input _].
        split; [reflexivity|].
        split; [unfold emit; cbn [log]; rewrite <- !app_assoc; reflexivity|].
        split; [reflexivity|]. split; [simpl; lia|]. split; [reflexivity | discriminate]. }
    destruct (loop U C fuel _ _ _ _ _ _ _ _) as [e|] eqn:El; [|discriminate].
    intros Ha. right. split; [reflexivity|].
    exists (stat_size s), (match g with Ok q => q | Failed _ => start' end),
      (emit (EvConvert input (refPng (working_files U C input))) w3
            (emit (EvIdentify input) w2 (emit (EvStat input) w1 st))), e.
    split; [unfold emit; cbn [log app]; rewrite <- !app_assoc; reflexivity|].
    split; [exact El|]. unfold conclude.
    destruct e as [q' sc sz t' st'|msg t' st']; [|injection Ha as <-; reflexivity].
    destruct (passes threshold (stat_size s) sc sz); [|injection Ha as <-; reflexivity].
    destruct (finish U C _ _ _ _ _ _) as [[o t2] st2]. injection Ha as <-. reflexivity.
Qed.

End Trace.

Lemma forallb_weaken {A} (P Q : A -> bool) (l : list A) :
  (forall a, P a = true -> Q a = true) ->
  forallb P l = true -> forallb Q l = true.
Proof.
  intros HPQ. induction l as [|a l IH]; [reflexivity|]. cbn [forallb].
  intros H. apply andb_true_iff in H as [Ha Hl].
  rewrite (HPQ a Ha), (IH Hl). reflexivity.
Qed.

Lemma filter_none {A} (P Q : A -> bool) (l : list A) :
  (forall a, P a = true -> Q a = false) ->
  forallb P l = true -> List.filter Q l = [].
Proof.
  intros HPQ. induction l as [|a l IH]; [reflexivity|]. cbn [forallb List.filter].
  intros H. apply andb_true_iff in H as [Ha Hl].
  rewrite (HPQ a Ha). exact (IH Hl).
Qed.

Section TraceDriver.

Context {W : Type}.
Variable U : Utils.
Variable C : Collaborators W.

Lemma closing_of_nil input (o : Outcome) :
  (forall q i s, o <> Return true (CandidateFound q i s)) ->
  closing_of U C input o [].
Proof.
  intros Hno. destruct o as [[] [| | | |q i s]|]; try reflexivity.
  destruct (Hno q i s eq_refl).
Qed.

Lemma closing_done input (o : Outcome) (trials : Trials) (st : St W) post :
  closing U C input (Done o trials st) post -> closing_of U C input o post.
Proof. destruct o as [[] [| | | |q i s]|]; exact (fun H => H). Qed.

Lemma preamble_setup input prior :
  forallb is_setup (preamble U C input prior) = true
  /\ length (List.filter is_identify (preamble U C input prior))
     = (if prior then 0 else 1)%nat
  /\ forallb (fun e => negb (is_exec e)) (preamble U C input prior) = true.
Proof. destruct prior; repeat split; reflexivity. Qed.

(** The calls of a whole search: first calls that are probes of files,
    runs of cwebp, the quality guess, conversions and probe trials, then
    what closes a successful search. *)
Lemma webpRecompress_trace fuel :
  forall input threshold thresholdMultiplier start quiet verbose prior priorTrials
         (st : St W) o trials st',
    webpRecompress U C fuel input threshold thresholdMultiplier start quiet verbose prior
                   priorTrials st = Some (o, trials, st') ->
    exists main post,
      log st' = log st ++ main ++ post
      /\ forallb (fun e => is_setup e || is_probe e) main = true
      /\ (length (List.filter is_identify main) <= if prior then 0 else 1)%nat
      /\ (if test (pngRegex U) input
          then forallb is_setup main = true
          else forallb (fun e => negb (is_exec e)) main = true)
      /\ closing_of U C input o post.
Proof.
  induction fuel as [|fuel IH]; intros input threshold m start quiet verbose prior
    priorTrials st o trials st'; rewrite webpRecompress_unfold;
    destruct (attempt U C _ _ _ _ _ _ _ _ _ _) as [a|] eqn:Ea; try discriminate;
    (destruct (attempt_inv_pre U C _ _ _ _ _ _ _ _ _ _ _ Ea)
      as [(o1 & st1 & pre & -> & Hl & Hset & Hid & Hex & Hno)
         |(Hpng & inputSize & q0 & st0 & e & Hl0 & El & ->)]).
  (* no fuel left: only a returning invocation gives a result *)
  - intros [= <- <- <-]. exists pre, []. rewrite app_nil_r.
    split; [exact Hl|].
    split; [exact (forallb_weaken _ _ _ (fun a H => eq_trans (f_equal (fun b => b || _) H) eq_refl) Hset)|].
    split; [exact Hid|].
    split; [destruct (test (pngRegex U) input); [exact Hset | exact (Hex eq_refl)]|].
    apply closing_of_nil. exact Hno.
  - discriminate El.
  (* some fuel left *)
  - intros [= <- <- <-]. exists pre, []. rewrite app_nil_r.
    split; [exact Hl|].
    split; [exact (forallb_weaken _ _ _ (fun a H => eq_trans (f_equal (fun b => b || _) H) eq_refl) Hset)|].
    split; [exact Hid|].
    split; [destruct (test (pngRegex U) input); [exact Hset | exact (Hex eq_refl)]|].
    apply closing_of_nil. exact Hno.
  - destruct (loop_trace U C (fun _ => True) _ _ _ _ _ _ (fun _ _ _ => conj I I)
                _ _ _ _ I El) as (probes & Hp & Hall & _).
    destruct (conclude_trace U C input inputSize threshold m e) as (post & Hpost & Hclose).
    destruct (preamble_setup input prior) as (Hpre1 & Hpre2 & Hpre3).
    assert (Hmain1 : forallb (fun e => is_setup e || is_probe e)
                             (preamble U C input prior ++ probes) = true).
    { rewrite forallb_app.
      rewrite (forallb_weaken is_setup _ _
                 (fun a H => eq_trans (f_equal (fun b => b || _) H) eq_refl) Hpre1).
      rewrite (forallb_weaken is_probe _ _
                 (fun a H => eq_trans (f_equal (fun b => _ || b) H) (orb_true_r _)) Hall).
      reflexivity. }
    assert (Hprobes_id : List.filter is_identify probes = []).
    { apply (filter_none is_probe); [|exact Hall]. intros [] H; try discriminate; reflexivity. }
    assert (Hprobes_ex : forallb (fun e => negb (is_exec e)) probes = true).
    { apply (forallb_weaken is_probe); [|exact Hall].
      intros [] H; try discriminate; reflexivity. }
    destruct (conclude U C input inputSize threshold m e) as [o1 t1 st1|th1 q1 t1 st1]
      eqn:Hc; cbn [attempt_st] in Hpost.
    + intros [= <- <- <-]. exists (preamble U C input prior ++ probes), post.
      split; [rewrite Hpost, Hp, Hl0, <- !app_assoc; reflexivity|].
      split; [exact Hmain1|].
      split; [rewrite List.filter_app, length_app, Hpre2, Hprobes_id; simpl; lia|].
      split; [rewrite Hpng, forallb_app, Hpre3, Hprobes_ex; reflexivity|].
      exact (closing_done _ _ _ _ _ Hclose).
    + cbn [closing] in Hclose. subst post. rewrite app_nil_r in Hpost.
      intros Hr. destruct (IH _ _ _ _ _ _ _ _ _ _ _ _ Hr)
        as (main' & post' & Hl' & Hm1 & Hm2 & Hm3 & Hm4).
      rewrite Hpng in Hm3.
      exists ((preamble U C input prior ++ probes) ++ main'), post'.
      split; [rewrite Hl', Hpost, Hp, Hl0, <- !app_assoc; reflexivity|].
      split; [rewrite forallb_app, Hmain1, Hm1; reflexivity|].
      split.
      { rewrite !List.filter_app, !length_app, Hpre2, Hprobes_id.
        cbn [length] in *. lia. }
      split; [rewrite Hpng, !forallb_app, Hpre3, Hprobes_ex, Hm3; reflexivity|].
      exact Hm4.
Qed.

End TraceDriver.

(** X12.  The working files are cleaned up exactly when a candidate is
    reported, and then last.  The calls of a search that reports a
    candidate end with the confirming trial, at the reported quality and
    quiet, followed by the cleanup of the three working files; every call
    before these two is a probe of a file, a run of cwebp, the quality
    guess, a conversion or a probe trial.  A search that ends in any other
    way (a failure, an exception, a PNG encoded) makes only such calls: it
    never cleans up and never runs a confirming trial. *)
Theorem X12_cleanup_exactly_on_success {W} (U : Utils) (C : Collaborators W)
    fuel input threshold thresholdMultiplier start quiet verbose prior priorTrials
    (st : St W) o (trials : Trials) st' :
  webpRecompress U C fuel input threshold thresholdMultiplier start quiet verbose prior
                 priorTrials st = Some (o, trials, st') ->
  exists main post,
    log st' = log st ++ main ++ post
    /\ forallb (fun e => is_setup e || is_probe e) main = true
    /\ match o with
       | Return true (CandidateFound q _ _) =>
           exists out,
             post = [EvTrial Confirm q true out; EvCleanUp (working_files U C input)]
       | _ => post = []
       end.
Proof.
  intros Hrun.
  destruct (webpRecompress_trace U C fuel _ _ _ _ _ _ _ _ _ _ _ _ Hrun)
    as (main & post & Hl & Hm & _ & _ & Hc).
  exists main, post. split; [exact Hl|]. split; [exact Hm | exact Hc].
Qed.

(** X12 at a search that converges after eleven probes, and at one that
    ends with a failed trial. *)
Lemma X12_cleanup_exactly_on_success_witness :
  (exists tbl st' main out,
      webpRecompress Sample.utils (Script.collaborators Sample.jpeg_repeatable) 30
                     "photo.jpg" (2 # 100) (3 # 2) 75 false false false None Script.start
      = Some (Return true (CandidateFound (Some 80) 100000 (Some 40000)), tbl, st')
      /\ log st' = main ++ [EvTrial Confirm (Some 80) true out;
                            EvCleanUp (mkFiles "photo.png" "photo.webp" "photo-webp.png")]
      /\ forallb (fun e => is_setup e || is_probe e) main = true)
  /\ (exists tbl st',
         webpRecompress Sample.utils (Script.collaborators Sample.jpeg_trial_fails) 30
                        "photo.jpg" (2 # 100) (3 # 2) 75 false false false None Script.start
         = Some (Return false (TrialFailed (Js.Str "Couldn't encode WebP.")), tbl, st')
         /\ forallb (fun e => is_setup e || is_probe e) (log st') = true).
Proof.
  split.
  - eexists _, _.
    assert (Hrun : webpRecompress Sample.utils (Script.collaborators Sample.jpeg_repeatable) 30
                     "photo.jpg" (2 # 100) (3 # 2) 75 false false false None Script.start
                   = Some (Return true (CandidateFound (Some 80) 100000 (Some 40000)), _, _))
      by (vm_compute; reflexivity).
    destruct (X12_cleanup_exactly_on_success _ _ _ _ _ _ _ _ _ _ _ _ _ _ _ Hrun)
      as (main & post & Hl & Hm & out & ->).
    exists main, out. split; [exact Hrun|]. split; [exact Hl | exact Hm].
  - eexists _, _.
    assert (Hrun : webpRecompress Sample.utils (Script.collaborators Sample.jpeg_trial_fails) 30
                     "photo.jpg" (2 # 100) (3 # 2) 75 false false false None Script.start
                   = Some (Return false (TrialFailed (Js.Str "Couldn't encode WebP.")), _, _))
      by (vm_compute; reflexivity).
    destruct (X12_cleanup_exactly_on_success _ _ _ _ _ _ _ _ _ _ _ _ _ _ _ Hrun)
      as (main & post & Hl & Hm & ->).
    split; [exact Hrun|]. rewrite Hl, app_nil_r. exact Hm.
Defined.

(** X13.  The quality guess is asked at most once in a search, and only
    by a fresh call: a call with [prior] set never asks it, and neither do
    the retries of any call. *)
Theorem X13_quality_guessed_at_most_once {W} (U : Utils) (C : Collaborators W)
    fuel input threshold thresholdMultiplier start quiet verbose prior priorTrials
    (st : St W) o (trials : Trials) st' :
  webpRecompress U C fuel input threshold thresholdMultiplier start quiet verbose prior
                 priorTrials st = Some (o, trials, st') ->
  exists calls,
    log st' = log st ++ calls
    /\ (length (List.filter is_identify calls) <= if prior then 0 else 1)%nat.
Proof.
  intros Hrun.
  destruct (webpRecompress_trace U C fuel _ _ _ _ _ _ _ _ _ _ _ _ Hrun)
    as (main & post & Hl & _ & Hid & _ & Hc).
  exists (main ++ post). split; [exact Hl|].
  rewrite List.filter_app, length_app.
  assert (List.filter is_identify post = []) as ->.
  { destruct o as [[] [| | | |q i s]|]; cbn [closing_of] in Hc;
      try (subst post; reflexivity).
    destruct Hc as [out ->]. reflexivity. }
  cbn [length]. lia.
Qed.

(** X13 at a search with eight retries: one guess among its 33 calls. *)
Lemma X13_quality_guessed_at_most_once_witness :
  exists o tbl st',
    webpRecompress Sample.utils (Script.collaborators Sample.jpeg_drifting) 20
                   "photo.jpg" (1 # 100) (3 # 2) 75 false false false None Script.start
    = Some (o, tbl, st')
    /\ length (log st') = 33%nat
    /\ exists calls,
        log st' = [] ++ calls
        /\ (length (List.filter is_identify calls) <= 1)%nat.
Proof.
  eexists _, _, _. split; [vm_compute; reflexivity|]. split; [reflexivity|].
  eapply (X13_quality_guessed_at_most_once Sample.utils
            (Script.collaborators Sample.jpeg_drifting) 20 "photo.jpg" (1 # 100) (3 # 2) 75
            false false false None Script.start).
  vm_compute. reflexivity.
Defined.

(** X14.  The driver runs cwebp itself only for a PNG input.  On any
    other input none of its own calls is a run of cwebp (encoding is left
    to the trials); on a PNG input every call is a probe of a file or a
    run of cwebp: there is no quality guess, no conversion, no trial and
    no cleanup. *)
Theorem X14_cwebp_run_only_for_png {W} (U : Utils) (C : Collaborators W)
    fuel input threshold thresholdMultiplier start quiet verbose prior priorTrials
    (st : St W) o (trials : Trials) st' :
  webpRecompress U C fuel input threshold thresholdMultiplier start quiet verbose prior
                 priorTrials st = Some (o, trials, st') ->
  exists calls,
    log st' = log st ++ calls
    /\ if test (pngRegex U) input
       then forallb (fun e => match e with
                              | EvStat _ | EvExecFile _ => true
                              | _ => false
                              end) calls = true
       else forallb (fun e => negb (is_exec e)) calls = true.
Proof.
  intros Hrun.
  destruct (webpRecompress_trace U C fuel _ _ _ _ _ _ _ _ _ _ _ _ Hrun)
    as (main & post & Hl & _ & _ & Hx & Hc).
  exists (main ++ post). split; [exact Hl|].
  destruct (test (pngRegex U) input) eqn:Hpng.
  - rewrite (webpRecompress_png U C _ _ _ _ _ _ _ _ _ _ Hpng) in Hrun.
    injection Hrun as Ho _ Hst.
    pose proof (pngPath_log U C input st) as Hlog. cbv zeta in Hlog.
    rewrite Ho, Hst, Hl in Hlog.
    destruct Hlog as [[_ He]|[[_ He]|He]]; apply app_inv_head in He; rewrite He;
      reflexivity.
  - rewrite forallb_app, Hx.
    destruct o as [[] [| | | |q i s]|]; cbn [closing_of] in Hc;
      try (subst post; reflexivity).
    destruct Hc as [out ->]. reflexivity.
Qed.

(** X14 at a JPEG search with eleven probes and at a PNG. *)
Lemma X14_cwebp_run_only_for_png_witness :
  (exists o tbl st',
      webpRecompress Sample.utils (Script.collaborators Sample.jpeg_repeatable) 30
                     "photo.jpg" (2 # 100) (3 # 2) 75 false false false None Script.start
      = Some (o, tbl, st')
      /\ exists calls,
          log st' = [] ++ calls /\ forallb (fun e => negb (is_exec e)) calls = true)
  /\ (exists o tbl st',
         webpRecompress Sample.utils (Script.collaborators Sample.png_ok) 0
                        "photo.png" (2 # 100) (3 # 2) 75 false false false None Script.start
         = Some (o, tbl, st')
         /\ exists calls,
             log st' = [] ++ calls
             /\ forallb (fun e => match e with
                                    | EvStat _ | EvExecFile _ => true
                                    | _ => false
                                    end) calls = true).
Proof.
  split.
  - eexists _, _, _. split; [vm_compute; reflexivity|].
    eapply (X14_cwebp_run_only_for_png Sample.utils
              (Script.collaborators Sample.jpeg_repeatable) 30 "photo.jpg" (2 # 100) (3 # 2)
              75 false false false None Script.start).
    vm_compute. reflexivity.
  - eexists _, _, _. split; [vm_compute; reflexivity|].
    eapply (X14_cwebp_run_only_for_png Sample.utils
              (Script.collaborators Sample.png_ok) 0 "photo.png" (2 # 100) (3 # 2)
              75 false false false None Script.start).
    vm_compute. reflexivity.
Defined.

(** ** The table across a search *)

Lemma extends_refl (trials : Trials) : extends trials trials.
Proof. intros q r Hq. exists r. repeat split; [exact Hq | lia]. Qed.

Lemma extends_trans (t1 t2 t3 : Trials) : extends t1 t2 -> extends t2 t3 -> extends t1 t3.
Proof.
  intros H12 H23 q r Hq.
  destruct (H12 q r Hq) as (r2 & Hq2 & Hs2 & Hz2 & Ha2).
  destruct (H23 q r2 Hq2) as (r3 & Hq3 & Hs3 & Hz3 & Ha3).
  exists r3. split; [exact Hq3|]. split; [congruence|]. split; [congruence | lia].
Qed.

Lemma record_attempt_extends quality score size (trials : Trials) :
  extends trials (record_attempt quality score size trials).
Proof.
  intros q r Hq. rewrite record_attempt_insert.
  destruct (decide (quality = q)) as [->|Hne].
  - rewrite Hq, lookup_insert_eq. exists (TrialRecord.bump r).
    split; [reflexivity|]. cbn. repeat split; lia.
  - rewrite lookup_insert_ne by assumption. exists r. repeat split; [exact Hq | lia].
Qed.

Section Growth.

Context {W : Type}.
Variable U : Utils.
Variable C : Collaborators W.
Hypothesis frame : keeps_table C.

Lemma body_extends input inputSize files threshold quiet quality trials (st : St W) :
  extends trials
          (step_trials (body U C input inputSize files threshold quiet quality trials st)).
Proof.
  unfold body, run_trial.
  pose proof (frame input inputSize files (Some quality) quiet trials (world st)) as Hf.
  destruct (trial C _ _ _ _ _ _ _) as [[out t'] w']. cbn [fst snd] in Hf. subst t'.
  destruct out as [sc sz|data]; [|apply extends_refl].
  pose proof (record_attempt_extends quality sc sz trials) as H.
  destruct (3 <? _)%nat; [exact H|].
  destruct (inputSize <=? sz); [exact H|].
  destruct (Qle_bool sc threshold); exact H.
Qed.

Lemma loop_extends fuel input inputSize files threshold quiet :
  forall quality trials (st : St W) e,
    loop U C fuel input inputSize files threshold quiet quality trials st = Some e ->
    extends trials (exit_trials e).
Proof.
  induction fuel as [|fuel IH]; intros quality trials st e; [discriminate|].
  rewrite loop_S.
  pose proof (body_extends input inputSize files threshold quiet quality trials st) as Hb.
  destruct (body U C _ _ _ _ _ _ _ _) as [q1 sc1 sz1 t1 st1|q1 sc1 sz1 t1 st1|msg t1 st1];
    cbn [step_trials] in Hb.
  - destruct (while_cond threshold inputSize sc1 sz1).
    + intros Hl. exact (extends_trans _ _ _ Hb (IH _ _ _ _ Hl)).
    + intros [= <-]. exact Hb.
  - intros [= <-]. exact Hb.
  - intros [= <-]. exact Hb.
Qed.

Lemma conclude_trials input inputSize threshold thresholdMultiplier (e : @LoopExit W) :
  attempt_trials (conclude U C input inputSize threshold thresholdMultiplier e)
  = exit_trials e.
Proof.
  destruct e as [q sc sz trials st|msg trials st]; cbn [conclude exit_trials]; [|reflexivity].
  destruct (passes threshold inputSize sc sz); [|reflexivity].
  pose proof (finish_table U C input inputSize (working_files U C input) sc trials st) as Ht.
  destruct (finish U C _ _ _ _ _ _) as [[o t2] st2]. exact Ht.
Qed.

Lemma webpRecompress_extends fuel :
  forall input threshold thresholdMultiplier start quiet verbose prior priorTrials
         (st : St W) o trials st',
    webpRecompress U C fuel input threshold thresholdMultiplier start quiet verbose prior
                   priorTrials st = Some (o, trials, st') ->
    extends (default ∅ priorTrials) trials.
Proof.
  induction fuel as [|fuel IH]; intros input threshold m start quiet verbose prior
    priorTrials st o trials st'; rewrite webpRecompress_unfold;
    destruct (attempt U C _ _ _ _ _ _ _ _ _ _) as [a|] eqn:Ea; try discriminate;
    (destruct (attempt_inv U C _ _ _ _ _ _ _ _ _ _ _ Ea)
      as [(o1 & st1 & pre & -> & _)
         |(inputSize & q0 & st0 & pre & e & _ & _ & _ & _ & El & ->)]).
  - intros [= <- <- <-]. apply extends_refl.
  - discriminate El.
  - intros [= <- <- <-]. apply extends_refl.
  - pose proof (loop_extends _ _ _ _ _ _ _ _ _ _ El) as He.
    rewrite <- (conclude_trials input inputSize threshold m e) in He.
    destruct (conclude U C input inputSize threshold m e) as [o1 t1 st1|th1 q1 t1 st1];
      cbn [attempt_trials] in He.
    + intros [= <- <- <-]. exact He.
    + intros Hr. exact (extends_trans _ _ _ He (IH _ _ _ _ _ _ _ (Some t1) _ _ _ _ Hr)).
Qed.

End Growth.

(** X15.  A search only adds to the table.  With a trial collaborator
    that leaves the table alone, every entry of the table handed in is
    still there when the call returns, however it returns and after any
    number of retries, with the score and size it had and with at least as
    many attempts: nothing is removed, overwritten or counted down. *)
Theorem X15_table_only_grows {W} (U : Utils) (C : Collaborators W)
    fuel input threshold thresholdMultiplier start quiet verbose prior priorTrials
    (st : St W) o (trials : Trials) st' :
  keeps_table C ->
  webpRecompress U C fuel input threshold thresholdMultiplier start quiet verbose prior
                 priorTrials st = Some (o, trials, st') ->
  forall q r,
    default ∅ priorTrials !! q = Some r ->
    exists r',
      trials !! q = Some r'
      /\ TrialRecord.score r' = TrialRecord.score r
      /\ TrialRecord.size r' = TrialRecord.size r
      /\ (TrialRecord.attempts r <= TrialRecord.attempts r')%nat.
Proof.
  intros Hframe Hrun. exact (webpRecompress_extends U C Hframe fuel _ _ _ _ _ _ _ _ _ _ _ _ Hrun).
Qed.

(** X15 at a search handed the entry (0.75, 20 bytes, 1 attempt) for
    quality 40, which it never probes. *)
Lemma X15_table_only_grows_witness :
  exists o tbl st',
    webpRecompress Sample.utils (Script.collaborators Sample.jpeg_stuck) 20
                   "photo.jpg" (1 # 100) (3 # 2) 75 false false true
                   (Some Sample.earlier_trials) Script.start
    = Some (o, tbl, st')
    /\ exists r',
        tbl !! 40 = Some r'
        /\ TrialRecord.score r' = (3 # 4)%Q
        /\ TrialRecord.size r' = 20
        /\ (1 <= TrialRecord.attempts r')%nat.
Proof.
  eexists _, _, _. split; [vm_compute; reflexivity|].
  eapply (X15_table_only_grows Sample.utils (Script.collaborators Sample.jpeg_stuck) 20
            "photo.jpg" (1 # 100) (3 # 2) 75 false false true (Some Sample.earlier_trials)
            Script.start) with (q := 40) (r := TrialRecord.mk (3 # 4) 20 1).
  - intros input inputSize files quality quiet trials w. reflexivity.
  - vm_compute. reflexivity.
  - reflexivity.
Defined.

(** ** Where the relaxation ends *)

(** Only an invocation on a JPEG input ends in a retry. *)
Lemma attempt_retry_jpeg {W} (U : Utils) (C : Collaborators W)
      fuel input threshold thresholdMultiplier start quiet verbose prior priorTrials
      (st : St W) threshold' start' trials' st' :
  attempt U C fuel input threshold thresholdMultiplier start quiet verbose prior
          priorTrials st = Some (Retry threshold' start' trials' st') ->
  test (pngRegex U) input = false /\ test (jpegRegex U) input = true.
Proof.
  unfold attempt.
  destruct (test (pngRegex U) input).
  { destruct (pngPath U C input st). discriminate. }
  destruct (test (jpegRegex U) input); [split; reflexivity | discriminate].
Qed.



(** ** The range of the quality *)

Section UpperBound.

Context {W : Type}.
Variable U : Utils.
Variable C : Collaborators W.
Hypothesis interval_nonneg : forall score threshold q, 0 <= getQualityInterval U score threshold q.
Hypothesis clamp_le : forall q, clampQuality U q <= 100.

Lemma loop_exit_quality fuel input inputSize files threshold quiet :
  forall quality trials (st : St W) q score size trials' st',
    quality <= 100 ->
    loop U C fuel input inputSize files threshold quiet quality trials st
    = Some (Exited q score size trials' st') ->
    q <= 102.
Proof.
  induction fuel as [|fuel IH]; intros quality trials st q score size trials' st' Hq;
    [discriminate|].
  rewrite loop_S.
  destruct (body U C _ _ _ _ _ _ _ _) as [q1 sc1 sz1 t1 st1|q1 sc1 sz1 t1 st1|msg t1 st1]
    eqn:Hb.
  - rewrite (body_again_cond U C _ _ _ _ _ _ _ _ _ _ _ _ _ Hb).
    apply IH.
    destruct (body_again_quality U C _ _ _ _ _ _ _ _ _ _ _ _ _ Hb) as [->| ->].
    + pose proof (interval_nonneg sc1 threshold quality). lia.
    + apply clamp_le.
  - intros [= <- _ _ _ _].
    destruct (body_leave_cases U C _ _ _ _ _ _ _ _ _ _ _ _ _ Hb) as [[_ ->]|[_ ->]].
    + destruct (inputSize <=? sz1); lia.
    + lia.
  - discriminate.
Qed.

End UpperBound.

(** X17.  The quality never goes above 100 inside the loop.  If
    [getQualityInterval] is never negative and [clampQuality] never
    exceeds 100, then in a loop entered at a quality of at most 100 every
    call is a probe at a quality of at most 100, and the loop leaves with
    a quality of at most 102 (the escape adds 2 with no clamp). *)
Theorem X17_quality_at_most_100 {W} (U : Utils) (C : Collaborators W)
    fuel input inputSize files threshold quiet quality (trials : Trials) (st : St W) e :
  (forall score threshold q, 0 <= getQualityInterval U score threshold q) ->
  (forall q, clampQuality U q <= 100) ->
  quality <= 100 ->
  loop U C fuel input inputSize files threshold quiet quality trials st = Some e ->
  (exists probes,
      log (exit_st e) = log st ++ probes
      /\ forallb is_probe probes = true
      /\ Forall (probe_within (fun q => q <= 100)) probes)
  /\ match e with
     | Exited q _ _ _ _ => q <= 102
     | Aborted _ _ _ => True
     end.
Proof.
  intros Hint Hclamp Hq Hl. split.
  - apply (loop_trace U C (fun q => q <= 100) fuel input inputSize files threshold quiet)
      with (quality := quality) (trials := trials); [|exact Hq | exact Hl].
    intros q score Hq'. split; [pose proof (Hint score threshold q); lia | apply Hclamp].
  - destruct e as [q sc sz t' st'|msg t' st']; [|exact I].
    eapply (loop_exit_quality U C Hint Hclamp); [exact Hq | exact Hl].
Qed.

(** X17 at a loop entered at 75 that gets stuck at quality 100 and
    leaves with 102. *)
Lemma X17_quality_at_most_100_witness :
  exists q score size trials' st',
    loop Sample.utils (Script.collaborators Sample.jpeg_stuck) 6 "photo.jpg" 1000
         (mkFiles "photo.png" "photo.webp" "photo-webp.png") (1 # 100) false 75 ∅
         Script.start
    = Some (Exited q score size trials' st')
    /\ (exists probes,
           log st' = [] ++ probes
           /\ forallb is_probe probes = true
           /\ Forall (probe_within (fun q => q <= 100)) probes)
    /\ q <= 102.
Proof.
  eexists _, _, _, _, _.
  assert (Hl : loop Sample.utils (Script.collaborators Sample.jpeg_stuck) 6 "photo.jpg" 1000
                 (mkFiles "photo.png" "photo.webp" "photo-webp.png") (1 # 100) false 75 ∅
                 Script.start
               = Some (Exited _ _ _ _ _)) by (vm_compute; reflexivity).
  split; [exact Hl|].
  assert (Hint : forall score threshold q,
             0 <= getQualityInterval Sample.utils score threshold q).
  { intros score threshold q. cbn [getQualityInterval Sample.utils Spec.utils].
    unfold Spec.getQualityInterval. lia. }
  assert (Hclamp : forall q, clampQuality Sample.utils q <= 100).
  { intros q. cbn [clampQuality Sample.utils Spec.utils]. unfold Spec.clampQuality. lia. }
  assert (Hq : 75 <= 100) by lia.
  exact (X17_quality_at_most_100 _ _ _ _ _ _ _ _ _ _ _ _ Hint Hclamp Hq Hl).
Defined.

(** ** A search that does not end *)

Section Descent.

Context {W : Type}.
Variable U : Utils.
Variable C : Collaborators W.
Variables (input : string) (inputSize : Z) (files : Files) (threshold : Q) (quiet : bool).

(** Every probe succeeds with a size that is not below the input size,
    and leaves the table alone. *)
Hypothesis never_smaller :
  forall q tbl w,
    exists score size w',
      trial C input inputSize files (Some q) quiet tbl w = (TrialOk score size, tbl, w')
      /\ inputSize <= size.
Hypothesis interval_pos : forall score q, 0 < getQualityInterval U score threshold q.

(** From a table whose qualities all lie above the current one the loop
    only descends: each probe is at a new quality, so the attempt cap is
    never reached, and each size regression sends it further down. *)
Lemma loop_descends fuel :
  forall quality (trials : Trials) (st : St W),
    (forall k r, trials !! k = Some r -> quality < k) ->
    loop U C fuel input inputSize files threshold quiet quality trials st = None.
Proof.
  induction fuel as [|fuel IH]; intros quality trials st Habove; [reflexivity|].
  rewrite loop_S. unfold body, run_trial.
  destruct (never_smaller quality trials (world st)) as (sc & sz & w' & -> & Hsz).
  assert (Hnew : trials !! quality = None).
  { destruct (trials !! quality) as [r|] eqn:E; [|reflexivity].
    pose proof (Habove quality r E). lia. }
  rewrite record_attempt_insert, attempts_at_insert, Hnew.
  cbn [TrialRecord.attempts Nat.ltb Nat.leb].
  apply Z.leb_le in Hsz. rewrite Hsz. unfold while_cond. rewrite Hsz, orb_true_r.
  apply IH. intros k r.
  pose proof (interval_pos sc quality).
  destruct (decide (quality = k)) as [<-|Hne].
  - intros _. lia.
  - rewrite lookup_insert_ne by assumption. intros Hk.
    pose proof (Habove k r Hk). lia.
Qed.

End Descent.

(** X18.  A search on a JPEG whose WebP is never smaller than the input
    does not return.  On a fresh call with no table, when every trial
    succeeds with a size of at least the input size (and leaves the table
    alone) and [getQualityInterval] is positive, the quality goes down by
    one interval per probe without bound: no quality is probed twice, the
    escape never fires, and no amount of fuel yields a result. *)
Theorem X18_size_regressions_never_end {W} (U : Utils) (C : Collaborators W)
    input threshold thresholdMultiplier start quiet verbose (st : St W) s w1 g w2 w3 :
  test (pngRegex U) input = false ->
  test (jpegRegex U) input = true ->
  (0 <= threshold)%Q -> (threshold <= 1)%Q ->
  statAsync C input (world st) = (Ok s, w1) ->
  identify C input w1 = (g, w2) ->
  convert C input (refPng (working_files U C input)) w2 = (Ok tt, w3) ->
  (forall q tbl w,
      exists score size w',
        trial C input (stat_size s) (working_files U C input) (Some q) quiet tbl w
        = (TrialOk score size, tbl, w')
        /\ stat_size s <= size) ->
  (forall score q, 0 < getQualityInterval U score threshold q) ->
  forall fuel,
    webpRecompress U C fuel input threshold thresholdMultiplier start quiet verbose false
                   None st = None.
Proof.
  intros Hpng Hjpeg H0 H1 Hstat Hid Hconv Hnever Hpos fuel.
  rewrite webpRecompress_unfold.
  rewrite (attempt_search U C fuel input threshold thresholdMultiplier start quiet verbose
             false None st s w1
             (match g with Ok q => q | Failed _ => clamp_start U start end)
             (mkSt w2 ((log st ++ [EvStat input]) ++ [EvIdentify input])) (Ok tt) w3
             Hpng Hjpeg H0 H1 Hstat).
  - rewrite (loop_descends U C input (stat_size s) (working_files U C input) threshold quiet
               Hnever Hpos fuel); [reflexivity|].
    intros k r Hk. cbn [default] in Hk. rewrite lookup_empty in Hk. discriminate.
  - unfold guess_quality. cbn [world log]. rewrite Hid. reflexivity.
  - exact Hconv.
Qed.

(** X18 at a JPEG of 1000 bytes whose WebP has 2000 bytes at every
    quality: no result within 200 rounds. *)
Lemma X18_size_regressions_never_end_witness :
  webpRecompress Sample.utils (Script.collaborators Sample.jpeg_never_smaller) 200
                 "photo.jpg" (1 # 100) (3 # 2) 75 false false false None Script.start
  = None.
Proof.
  apply (X18_size_regressions_never_end Sample.utils
           (Script.collaborators Sample.jpeg_never_smaller) "photo.jpg" (1 # 100) (3 # 2) 75
           false false Script.start (mkStats 1000) 0%nat (Ok 75) 0%nat 0%nat).
  - reflexivity.
  - reflexivity.
  - discriminate.
  - discriminate.
  - reflexivity.
  - reflexivity.
  - reflexivity.
  - intros q tbl w. exists (1 # 2)%Q, 2000, (S w). split; [reflexivity|]. simpl. lia.
  - intros score q. cbn [getQualityInterval Sample.utils Spec.utils].
    unfold Spec.getQualityInterval. lia.
Defined.

(** ** A search that succeeds at once *)

(** X19.  A fresh call with no table whose first probe, at the guessed
    quality [q], passes makes exactly six calls: the probe of the input,
    the quality guess, the conversion, the probe trial at [q], the
    confirming trial and the cleanup.  The table then holds the one entry
    for [q], with one attempt; and when [getFinalQuality], handed that
    table, answers with its one entry, the call reports quality [q] and
    the size of that probe. *)
Theorem X19_first_probe_succeeds {W} (U : Utils) (C : Collaborators W)
    fuel input threshold thresholdMultiplier start quiet verbose (st : St W)
    s w1 q w2 w3 score size w4 :
  test (pngRegex U) input = false ->
  test (jpegRegex U) input = true ->
  (0 <= threshold)%Q -> (threshold <= 1)%Q ->
  statAsync C input (world st) = (Ok s, w1) ->
  identify C input w1 = (Ok q, w2) ->
  convert C input (refPng (working_files U C input)) w2 = (Ok tt, w3) ->
  trial C input (stat_size s) (working_files U C input) (Some q) quiet ∅ w3
  = (TrialOk score size, ∅, w4) ->
  (score <= threshold)%Q ->
  size < stat_size s ->
  getFinalQuality U score {[q := TrialRecord.mk score size 1]} = (Some q, Some size) ->
  exists out st',
    webpRecompress U C (S fuel) input threshold thresholdMultiplier start quiet verbose false
                   None st
    = Some (Return true (CandidateFound (Some q) (stat_size s) (Some size)),
            {[q := TrialRecord.mk score size 1]}, st')
    /\ log st' = log st ++ [EvStat input; EvIdentify input;
                            EvConvert input (refPng (working_files U C input));
                            EvTrial Probe (Some q) quiet (TrialOk score size);
                            EvTrial Confirm (Some q) true out;
                            EvCleanUp (working_files U C input)].
Proof.
  intros Hpng Hjpeg H0 H1 Hstat Hid Hconv Htrial Hsc Hsz Hg.
  change ({[q := TrialRecord.mk score size 1]} : Trials)
    with (<[q := TrialRecord.mk score size 1]> (∅ : Trials)) in Hg.
  rewrite webpRecompress_unfold.
  rewrite (attempt_search U C (S fuel) input threshold thresholdMultiplier start quiet
             verbose false None st s w1 q
             (mkSt w2 ((log st ++ [EvStat input]) ++ [EvIdentify input])) (Ok tt) w3
             Hpng Hjpeg H0 H1 Hstat).
  2:{ unfold guess_quality. cbn [world log]. rewrite Hid. reflexivity. }
  2:{ exact Hconv. }
  cbn [default]. rewrite loop_S. unfold body, run_trial. cbn [world log].
  rewrite Htrial. rewrite record_attempt_insert, attempts_at_insert, lookup_empty.
  cbn [TrialRecord.attempts Nat.ltb Nat.leb].
  assert ((stat_size s <=? size) = false) as -> by (apply Z.leb_gt; exact Hsz).
  pose proof Hsc as Hscb. apply Qle_bool_iff in Hscb. rewrite Hscb.
  cbn [fmap option_fmap option_map conclude]. unfold passes. rewrite Hscb.
  assert ((size <? stat_size s) = true) as -> by (apply Z.ltb_lt; exact Hsz).
  cbn [andb].
  unfold finish, run_trial, emit. rewrite Hg. cbn [world log].
  destruct (trial C input (stat_size s) (working_files U C input) (Some q) true ∅ w4)
    as [[out t'] w5].
  exists out. eexists. split; [reflexivity|].
  cbn [log]. rewrite <- !app_assoc. reflexivity.
Qed.

(** X19 at a JPEG of 100000 bytes guessed at quality 80 whose trial at
    80 scores 0.01 with 60000 bytes, for the threshold 0.02. *)
Lemma X19_first_probe_succeeds_witness :
  exists out st',
    webpRecompress Sample.utils (Script.collaborators Sample.jpeg_first_try) 1
                   "photo.jpg" (2 # 100) (3 # 2) 75 false false false None Script.start
    = Some (Return true (CandidateFound (Some 80) 100000 (Some 60000)),
            {[80 := TrialRecord.mk (1 # 100) 60000 1]}, st')
    /\ log st' = [EvStat "photo.jpg"; EvIdentify "photo.jpg";
                  EvConvert "photo.jpg" "photo.png";
                  EvTrial Probe (Some 80) false (TrialOk (1 # 100) 60000);
                  EvTrial Confirm (Some 80) true out;
                  EvCleanUp (mkFiles "photo.png" "photo.webp" "photo-webp.png")].
Proof.
  apply (X19_first_probe_succeeds Sample.utils
           (Script.collaborators Sample.jpeg_first_try) 0 "photo.jpg" (2 # 100) (3 # 2) 75
           false false Script.start (mkStats 100000) 0%nat 80 0%nat 0%nat
           (1 # 100) 60000 1%nat).
  - reflexivity.
  - reflexivity.
  - discriminate.
  - discriminate.
  - reflexivity.
  - reflexivity.
  - reflexivity.
  - reflexivity.
  - discriminate.
  - simpl. lia.
  - vm_compute. reflexivity.
Defined.

(** ** The escape from an oscillation *)

Lemma attempts_at_record_eq q score size (trials : Trials) :
  attempts_at q (record_attempt q score size trials) = S (attempts_at q trials).
Proof.
  rewrite record_attempt_insert, attempts_at_insert. unfold attempts_at.
  destruct (trials !! q); reflexivity.
Qed.

Lemma attempts_at_record_ne q q' score size (trials : Trials) :
  q <> q' ->
  attempts_at q' (record_attempt q score size trials) = attempts_at q' trials.
Proof.
  intros Hne. rewrite record_attempt_insert. unfold attempts_at.
  rewrite lookup_insert_ne by assumption. reflexivity.
Qed.

Lemma probes_at_elsewhere (f : Z -> Q * Z) quiet q (l : list Z) :
  q ∉ l -> probes_at q (map (probe_of f quiet) l) = [].
Proof.
  induction l as [|x l IH]; [reflexivity|]. intros Hq.
  apply not_elem_of_cons in Hq as [Hne Hq].
  cbn [map probes_at flat_map probe_of observation].
  destruct (decide (x = q)) as [->|_]; [destruct (Hne eq_refl)|].
  exact (IH Hq).
Qed.

Lemma probes_at_round (f : Z -> Q * Z) quiet q (rest : list Z) :
  q ∉ rest -> length (probes_at q (map (probe_of f quiet) (q :: rest))) = 1%nat.
Proof.
  intros Hq. cbn [map probes_at flat_map probe_of observation].
  destruct (decide (q = q)) as [_|Hne]; [|destruct (Hne eq_refl)].
  change (flat_map (observation q) (map (probe_of f quiet) rest))
    with (probes_at q (map (probe_of f quiet) rest)).
  rewrite (probes_at_elsewhere f quiet q rest Hq). reflexivity.
Qed.

Lemma probes_at_oscillation (f : Z -> Q * Z) quiet q (rest : list Z) r :
  q ∉ rest -> length (probes_at q (oscillation f quiet q rest r)) = S r.
Proof.
  intros Hq. unfold oscillation. rewrite probes_at_app, length_app.
  assert (Hlast : length (probes_at q [probe_of f quiet q]) = 1%nat).
  { cbn [probes_at flat_map probe_of observation].
    destruct (decide (q = q)) as [_|Hne]; [reflexivity | destruct (Hne eq_refl)]. }
  rewrite Hlast.
  assert (Hr : length (probes_at q (concat (replicate r (map (probe_of f quiet) (q :: rest)))))
               = r).
  { induction r as [|r IH]; [reflexivity|].
    cbn [replicate concat]. rewrite probes_at_app, length_app, IH.
    rewrite (probes_at_round f quiet q rest Hq). reflexivity. }
  rewrite Hr. lia.
Qed.

Section Oscillation.

Context {W : Type}.
Variable U : Utils.
Variable C : Collaborators W.
Variables (input : string) (inputSize : Z) (files : Files) (threshold : Q) (quiet : bool).
Variable f : Z -> Q * Z.
Hypothesis frame : keeps_table C.

(** A steady probe that does not pass, at a quality with fewer than three
    attempts, sends the loop on by the decision ladder. *)
Lemma body_steady_again q (trials : Trials) (st : St W) :
  steady C input inputSize files f q ->
  passes threshold inputSize (f q).1 (f q).2 = false ->
  (attempts_at q trials < 3)%nat ->
  exists w',
    body U C input inputSize files threshold quiet q trials st
    = Again (next_quality U threshold inputSize q (f q).1 (f q).2) (f q).1 (f q).2
            (record_attempt q (f q).1 (f q).2 trials)
            (mkSt w' (log st ++ [probe_of f quiet q])).
Proof.
  intros Hsteady Hfail Hn. unfold body, run_trial, emit, probe_of.
  pose proof (frame input inputSize files (Some q) quiet trials (world st)) as Hf.
  pose proof (Hsteady quiet trials (world st)) as Hs.
  destruct (trial C _ _ _ _ _ _ _) as [[out t'] w']. cbn [fst snd] in Hf, Hs. subst out t'.
  exists w'. rewrite attempts_at_record_eq.
  assert ((3 <? S (attempts_at q trials))%nat = false) as -> by (apply Nat.ltb_ge; lia).
  unfold next_quality. unfold passes in Hfail.
  destruct (inputSize <=? (f q).2) eqn:Hsz; [reflexivity|].
  apply Z.leb_gt, Z.ltb_lt in Hsz. rewrite Hsz, andb_true_r in Hfail. rewrite Hfail.
  reflexivity.
Qed.

(** A steady probe at a quality that already counts three attempts ends
    the loop by the escape. *)
Lemma body_steady_leave q (trials : Trials) (st : St W) :
  steady C input inputSize files f q ->
  (3 <= attempts_at q trials)%nat ->
  exists w',
    body U C input inputSize files threshold quiet q trials st
    = Leave (if inputSize <=? (f q).2 then q - 2 else q + 2) (f q).1 (f q).2
            (record_attempt q (f q).1 (f q).2 trials)
            (mkSt w' (log st ++ [probe_of f quiet q])).
Proof.
  intros Hsteady Hn. unfold body, run_trial, emit, probe_of.
  pose proof (frame input inputSize files (Some q) quiet trials (world st)) as Hf.
  pose proof (Hsteady quiet trials (world st)) as Hs.
  destruct (trial C _ _ _ _ _ _ _) as [[out t'] w']. cbn [fst snd] in Hf, Hs. subst out t'.
  exists w'. rewrite attempts_at_record_eq.
  assert ((3 <? S (attempts_at q trials))%nat = true) as -> by (apply Nat.ltb_lt; lia).
  reflexivity.
Qed.

(** Once along a chain of qualities, each steady, not passing and with
    fewer than three attempts, each sending the ladder to the next. *)
Lemma loop_chain (l : list Z) :
  forall q q' (trials : Trials) (st : St W),
    NoDup (q :: l) ->
    (forall x, x ∈ q :: l ->
       steady C input inputSize files f x
       /\ passes threshold inputSize (f x).1 (f x).2 = false
       /\ (attempts_at x trials < 3)%nat) ->
    map (fun x => next_quality U threshold inputSize x (f x).1 (f x).2) (q :: l)
    = l ++ [q'] ->
    exists trials' st',
      (forall fuel,
         loop U C (length (q :: l) + fuel) input inputSize files threshold quiet q trials st
         = loop U C fuel input inputSize files threshold quiet q' trials' st')
      /\ log st' = log st ++ map (probe_of f quiet) (q :: l)
      /\ (forall x, x ∈ q :: l -> attempts_at x trials' = S (attempts_at x trials))
      /\ (forall x, x ∉ q :: l -> attempts_at x trials' = attempts_at x trials).
Proof.
  induction l as [|q2 l IH]; intros q q' trials st Hnd Hall Hnext.
  - injection Hnext as Hnext.
    destruct (Hall q ltac:(apply list_elem_of_here)) as (Hs & Hf & Hn).
    destruct (body_steady_again q trials st Hs Hf Hn) as [w' Hb].
    exists (record_attempt q (f q).1 (f q).2 trials), (mkSt w' (log st ++ [probe_of f quiet q])).
    split.
    { intros fuel. cbn [length Nat.add]. rewrite loop_S, Hb.
      rewrite (body_again_cond U C _ _ _ _ _ _ _ _ _ _ _ _ _ Hb), Hnext. reflexivity. }
    split; [reflexivity|]. split.
    + intros x Hx. apply list_elem_of_singleton in Hx as ->. apply attempts_at_record_eq.
    + intros x Hx. apply attempts_at_record_ne. intros ->. apply Hx, list_elem_of_here.
  - cbn [map app] in Hnext. injection Hnext as Hq2 Hnext.
    apply NoDup_cons in Hnd as [Hq Hnd].
    destruct (Hall q ltac:(apply list_elem_of_here)) as (Hs & Hf & Hn).
    destruct (body_steady_again q trials st Hs Hf Hn) as [w' Hb].
    destruct (IH q2 q' (record_attempt q (f q).1 (f q).2 trials)
                 (mkSt w' (log st ++ [probe_of f quiet q])) Hnd)
      as (trials' & st' & Hloop & Hlog & Hin & Hout).
    { intros x Hx. destruct (Hall x ltac:(apply list_elem_of_further; exact Hx))
        as (Hs' & Hf' & Hn').
      split; [exact Hs'|]. split; [exact Hf'|].
      rewrite attempts_at_record_ne; [exact Hn'|]. intros ->. exact (Hq Hx). }
    { exact Hnext. }
    exists trials', st'. split.
    { intros fuel. change (length (q :: q2 :: l) + fuel)%nat
        with (S (length (q2 :: l) + fuel)).
      rewrite loop_S, Hb.
      rewrite (body_again_cond U C _ _ _ _ _ _ _ _ _ _ _ _ _ Hb), Hq2. apply Hloop. }
    split.
    { rewrite Hlog. cbn [log map]. rewrite <- app_assoc. reflexivity. }
    split.
    + intros x Hx. apply elem_of_cons in Hx as [->|Hx].
      * rewrite (Hout q Hq). apply attempts_at_record_eq.
      * rewrite (Hin x Hx). f_equal. apply attempts_at_record_ne.
        intros ->. exact (Hq Hx).
    + intros x Hx. apply not_elem_of_cons in Hx as [Hne Hx].
      rewrite (Hout x Hx). apply attempts_at_record_ne. intros ->. exact (Hne eq_refl).
Qed.

Variables (q0 : Z) (rest : list Z).
Hypothesis distinct : NoDup (q0 :: rest).
Hypothesis stuck :
  forall q, q ∈ q0 :: rest ->
    steady C input inputSize files f q
    /\ passes threshold inputSize (f q).1 (f q).2 = false.
Hypothesis cycle :
  map (fun q => next_quality U threshold inputSize q (f q).1 (f q).2) (q0 :: rest)
  = rest ++ [q0].

(** [r] times round the oscillation, as long as no quality of it comes
    above three attempts. *)
Lemma loop_rounds (r : nat) :
  forall (trials : Trials) (st : St W),
    (forall q, q ∈ q0 :: rest -> (0 < r)%nat -> (attempts_at q trials + r <= 3)%nat) ->
    exists trials' st',
      (forall fuel,
         loop U C (length (q0 :: rest) * r + fuel) input inputSize files threshold quiet
              q0 trials st
         = loop U C fuel input inputSize files threshold quiet q0 trials' st')
      /\ log st' = log st ++ concat (replicate r (map (probe_of f quiet) (q0 :: rest)))
      /\ (forall q, q ∈ q0 :: rest -> attempts_at q trials' = (attempts_at q trials + r)%nat).
Proof.
  induction r as [|r IH]; intros trials st Hroom.
  - exists trials, st. split.
    { intros fuel. rewrite Nat.mul_0_r. reflexivity. }
    split; [cbn [replicate concat]; rewrite app_nil_r; reflexivity|].
    intros q _. lia.
  - destruct (loop_chain rest q0 q0 trials st distinct) as (t1 & st1 & Hloop & Hlog & Hin & _).
    { intros x Hx. destruct (stuck x Hx) as [Hs Hf].
      split; [exact Hs|]. split; [exact Hf|].
      pose proof (Hroom x Hx ltac:(lia)). lia. }
    { exact cycle. }
    destruct (IH t1 st1) as (t2 & st2 & Hloop2 & Hlog2 & Hin2).
    { intros q Hq Hr. rewrite (Hin q Hq). pose proof (Hroom q Hq ltac:(lia)). lia. }
    exists t2, st2. split.
    { intros fuel.
      replace (length (q0 :: rest) * S r + fuel)%nat
        with (length (q0 :: rest) + (length (q0 :: rest) * r + fuel))%nat by lia.
      rewrite Hloop. apply Hloop2. }
    split.
    { rewrite Hlog2, Hlog. cbn [replicate concat]. rewrite <- app_assoc. reflexivity. }
    intros q Hq. rewrite (Hin2 q Hq), (Hin q Hq). lia.
Qed.

(** The oscillation ends by the escape at the quality it started from. *)
Lemma loop_oscillation fuel (trials : Trials) (st : St W) :
  (forall q, q ∈ rest -> (attempts_at q trials <= attempts_at q0 trials)%nat) ->
  (length (q0 :: rest) * (3 - attempts_at q0 trials) < fuel)%nat ->
  exists trials' st',
    loop U C fuel input inputSize files threshold quiet q0 trials st
    = Some (Exited (if inputSize <=? (f q0).2 then q0 - 2 else q0 + 2) (f q0).1 (f q0).2
                   trials' st')
    /\ log st' = log st ++ oscillation f quiet q0 rest (3 - attempts_at q0 trials)
    /\ attempts_at q0 trials' = S (attempts_at q0 trials + (3 - attempts_at q0 trials)).
Proof.
  intros Hrest Hfuel.
  destruct (loop_rounds (3 - attempts_at q0 trials) trials st)
    as (t1 & st1 & Hloop & Hlog & Hin).
  { intros q Hq Hr. apply elem_of_cons in Hq as [->|Hq]; [lia|].
    pose proof (Hrest q Hq). lia. }
  pose proof (Hin q0 ltac:(apply list_elem_of_here)) as H0.
  destruct (stuck q0 ltac:(apply list_elem_of_here)) as [Hs _].
  destruct (body_steady_leave q0 t1 st1 Hs ltac:(lia)) as [w' Hb].
  exists (record_attempt q0 (f q0).1 (f q0).2 t1),
         (mkSt w' (log st1 ++ [probe_of f quiet q0])).
  split.
  { replace fuel
      with (length (q0 :: rest) * (3 - attempts_at q0 trials)
            + S (fuel - length (q0 :: rest) * (3 - attempts_at q0 trials) - 1))%nat by lia.
    rewrite Hloop, loop_S, Hb. reflexivity. }
  split.
  { cbn [log]. rewrite Hlog. unfold oscillation. rewrite <- app_assoc. reflexivity. }
  rewrite attempts_at_record_eq, H0. reflexivity.
Qed.

End Oscillation.

(** C5, as stated, fails on a table carried over from an earlier
    invocation.  The evaluator answers every probe with score 0.5 and 50
    bytes, and the ladder keeps selecting quality 100.  The first
    invocation escapes after four trials at 100 and retries from 102 with
    the table it has built; the second invocation, handed that table,
    escapes after a single trial at 100. *)
Lemma C5_counterexample :
  exists t1 tbl1 st1 t2 tbl2 st2,
    attempt Sample.utils (Script.collaborators Sample.jpeg_stuck) 4
            "photo.jpg" (1 # 100) (3 # 2) 75 false false false None Script.start
    = Some (Retry t1 102 tbl1 st1)
    /\ attempts_at 100 tbl1 = 4%nat
    /\ attempt Sample.utils (Script.collaborators Sample.jpeg_stuck) 4
               "photo.jpg" t1 (3 # 2) 102 false false true (Some tbl1) st1
       = Some (Retry t2 102 tbl2 st2)
    /\ log st2 = log st1 ++ [EvStat "photo.jpg"; EvConvert "photo.jpg" "photo.png";
                             EvTrial Probe (Some 100) false (TrialOk (1 # 2) 50)]
    /\ length (probes_at 100 [EvStat "photo.jpg"; EvConvert "photo.jpg" "photo.png";
                              EvTrial Probe (Some 100) false (TrialOk (1 # 2) 50)])
       <> 4%nat.
Proof.
  eexists _, _, _, _, _, _.
  split; [vm_compute; reflexivity|].
  split; [vm_compute; reflexivity|].
  split; [vm_compute; reflexivity|].
  split; [vm_compute; reflexivity|].
  vm_compute. discriminate.
Qed.

Lemma budget_pred (n : nat) : (budget n - 1 = 3 - n)%nat.
Proof. unfold budget. lia. Qed.

(** C5, amended.  Let the trial collaborator leave the table alone, and
    let the loop be at a quality [q0] of an oscillation: distinct
    qualities [q0 :: rest], each answered in the same way whenever it is
    probed, with a score and size that do not pass, and each sent on by
    the decision ladder to the next, the last one back to [q0].  Let the
    entry of [q0] count [n] attempts when the loop comes to it (none if
    it has no entry) and the other qualities no more.  Then, given fuel
    for it, the loop ends by the escape at [q0] after exactly
    [max 1 (4 - n)] trials there, four for a quality new to the table: it
    goes [max 1 (4 - n) - 1] times round the oscillation, probes [q0] once
    more, and leaves on that trial, which brings the attempts of [q0] to
    [n + max 1 (4 - n)], with the quality two below [q0] if the size is
    not below the input size and two above otherwise, and with the score
    and size of that trial. *)
Theorem C5_oscillation_escapes {W} (U : Utils) (C : Collaborators W) (f : Z -> Q * Z)
    fuel input inputSize files threshold quiet q0 rest (trials : Trials) (st : St W) n :
  keeps_table C ->
  NoDup (q0 :: rest) ->
  (forall q, q ∈ q0 :: rest ->
     steady C input inputSize files f q
     /\ passes threshold inputSize (f q).1 (f q).2 = false) ->
  map (fun q => next_quality U threshold inputSize q (f q).1 (f q).2) (q0 :: rest)
  = rest ++ [q0] ->
  attempts_at q0 trials = n ->
  (forall q, q ∈ rest -> (attempts_at q trials <= n)%nat) ->
  (length (q0 :: rest) * (budget n - 1) < fuel)%nat ->
  exists trials' st',
    loop U C fuel input inputSize files threshold quiet q0 trials st
    = Some (Exited (if inputSize <=? (f q0).2 then q0 - 2 else q0 + 2) (f q0).1 (f q0).2
                   trials' st')
    /\ log st' = log st ++ oscillation f quiet q0 rest (budget n - 1)
    /\ length (probes_at q0 (oscillation f quiet q0 rest (budget n - 1))) = budget n
    /\ attempts_at q0 trials' = (n + budget n)%nat.
Proof.
  intros Hframe Hnd Hstuck Hcycle Hn Hrest Hfuel. subst n.
  rewrite budget_pred in *.
  destruct (loop_oscillation U C input inputSize files threshold quiet f Hframe q0 rest
              Hnd Hstuck Hcycle fuel trials st Hrest Hfuel)
    as (trials' & st' & Hloop & Hlog & Hcount).
  exists trials', st'. split; [exact Hloop|]. split; [exact Hlog|].
  apply NoDup_cons in Hnd as [Hq0 _]. split.
  - rewrite (probes_at_oscillation f quiet q0 rest _ Hq0). unfold budget. lia.
  - rewrite Hcount. unfold budget. lia.
Qed.

(** The amended C5 at a search that swings between quality 50, too large
    with 2000 bytes for an input of 1000, and quality 1, too poor with
    score 0.5 for the threshold 0.01: the probes are at 50, 1, 50, 1, 50,
    1 and 50, four of them at 50, and the loop leaves with quality 48. *)
Lemma C5_oscillation_escapes_witness :
  exists trials' st',
    loop Sample.utils (Script.collaborators Sample.jpeg_oscillating) 7 "photo.jpg" 1000
         (mkFiles "photo.png" "photo.webp" "photo-webp.png") (1 # 100) false 50 ∅
         Script.start
    = Some (Exited 48 (1 # 2) 2000 trials' st')
    /\ log st' = [EvTrial Probe (Some 50) false (TrialOk (1 # 2) 2000);
                  EvTrial Probe (Some 1) false (TrialOk (1 # 2) 50);
                  EvTrial Probe (Some 50) false (TrialOk (1 # 2) 2000);
                  EvTrial Probe (Some 1) false (TrialOk (1 # 2) 50);
                  EvTrial Probe (Some 50) false (TrialOk (1 # 2) 2000);
                  EvTrial Probe (Some 1) false (TrialOk (1 # 2) 50);
                  EvTrial Probe (Some 50) false (TrialOk (1 # 2) 2000)]
    /\ length (probes_at 50 (oscillation Sample.swing false 50 [1] 3)) = 4%nat
    /\ attempts_at 50 trials' = 4%nat.
Proof.
  apply (C5_oscillation_escapes Sample.utils (Script.collaborators Sample.jpeg_oscillating)
           Sample.swing 7 "photo.jpg" 1000
           (mkFiles "photo.png" "photo.webp" "photo-webp.png") (1 # 100) false 50 [1] ∅
           Script.start 0%nat).
  - intros input inputSize files quality quiet trials w. reflexivity.
  - apply NoDup_cons. split; [|apply NoDup_singleton].
    intros H. apply list_elem_of_singleton in H. discriminate.
  - intros q Hq. apply elem_of_cons in Hq as [->|Hq];
      [|apply list_elem_of_singleton in Hq as ->]; split;
      try reflexivity; intros quiet trials w; reflexivity.
  - reflexivity.
  - reflexivity.
  - intros q Hq. apply list_elem_of_singleton in Hq as ->. vm_compute. lia.
  - simpl. lia.
Defined.

(** ** The candidate of a successful search *)

(** The table of section 8 of the design document: for the threshold
    0.05 the modelled [getFinalQuality] answers with the entry of 300
    bytes, whatever the score it is handed. *)
Example getFinalQuality_prefers_smaller score :
  getFinalQuality (Spec.utils Sample.jpegRegex Sample.pngRegex 3 100 (5 # 100)) score
                  {[80 := TrialRecord.mk (1 # 100) 500 1;
                    60 := TrialRecord.mk (2 # 100) 300 1]}
  = (Some 60, Some 300).
Proof. vm_compute. reflexivity. Qed.

Section CandidateDriver.

Context {W : Type}.
Variable U : Utils.
Variable C : Collaborators W.
Variable f : Z -> Q * Z.
Hypothesis frame : keeps_table C.
Hypothesis same : repeatable C f.

(** An invocation that retries or reports a candidate has a threshold
    inside [0,1] and has converted the input exactly once. *)
Lemma attempt_converts_once fuel input threshold thresholdMultiplier start quiet verbose
      prior priorTrials (st : St W) a :
  attempt U C fuel input threshold thresholdMultiplier start quiet verbose prior
          priorTrials st = Some a ->
  (forall o t s, a = Done o t s -> exists q i sz, o = Return true (CandidateFound q i sz)) ->
  (0 <= threshold)%Q /\ (threshold <= 1)%Q
  /\ exists calls,
      log (attempt_st a) = log st ++ calls
      /\ length (List.filter is_convert calls) = 1%nat.
Proof.
  intros Ha Hkind.
  assert (Hrange : (0 <= threshold)%Q /\ (threshold <= 1)%Q).
  { destruct (attempt_inv U C _ _ _ _ _ _ _ _ _ _ _ Ha)
      as [(o & st1 & pre & -> & _ & _ & Hno)
         |(inputSize & q0 & st0 & pre & e & _ & _ & H0 & H1 & _ & _)].
    - destruct (Hkind _ _ _ eq_refl) as (q & i & sz & ->). destruct (Hno q i sz eq_refl).
    - split; assumption. }
  destruct Hrange as [H0 H1]. split; [exact H0|]. split; [exact H1|].
  destruct (attempt_inv_pre U C _ _ _ _ _ _ _ _ _ _ _ Ha)
    as [(o & st1 & pre & -> & _ & _ & _ & _ & Hno)
       |(_ & inputSize & q0 & st0 & e & Hl0 & El & ->)].
  { destruct (Hkind _ _ _ eq_refl) as (q & i & sz & ->). destruct (Hno q i sz eq_refl). }
  destruct (loop_trace U C (fun _ => True) _ _ _ _ _ _ (fun _ _ _ => conj I I)
              _ _ _ _ I El) as (probes & Hp & Hall & _).
  destruct (conclude_trace U C input inputSize threshold thresholdMultiplier e)
    as (post & Hpost & Hclose).
  exists (preamble U C input prior ++ probes ++ post). split.
  { rewrite Hpost, Hp, Hl0, <- !app_assoc. reflexivity. }
  assert (Hprobes : List.filter is_convert probes = []).
  { apply (filter_none is_probe); [|exact Hall]. intros [] H; try discriminate; reflexivity. }
  assert (Hclosing : List.filter is_convert post = []).
  { destruct (conclude U C input inputSize threshold thresholdMultiplier e)
      as [[[] [| | | |q i s]|] t1 st1|th1 q1 t1 st1]; cbn [closing] in Hclose;
      try (subst post; reflexivity).
    destruct Hclose as [out ->]. reflexivity. }
  rewrite !List.filter_app, !length_app, Hprobes, Hclosing.
  destruct prior; reflexivity.
Qed.

(** The candidate of a search passes at the threshold of the invocation
    that reports it, the threshold handed in relaxed once for every retry
    that the calls show. *)
Lemma webpRecompress_candidate fuel :
  forall input threshold thresholdMultiplier start quiet verbose prior priorTrials
         (st : St W) oq inputSize osz trials st',
    consistent f (default ∅ priorTrials) ->
    webpRecompress U C fuel input threshold thresholdMultiplier start quiet verbose prior
                   priorTrials st
    = Some (Return true (CandidateFound oq inputSize osz), trials, st') ->
    exists calls,
      log st' = log st ++ calls
      /\ (0 < length (List.filter is_convert calls))%nat
      /\ (0 <= relaxed U thresholdMultiplier (retries calls) threshold)%Q
      /\ (relaxed U thresholdMultiplier (retries calls) threshold <= 1)%Q
      /\ (selects_smallest_passing U (relaxed U thresholdMultiplier (retries calls) threshold) ->
          exists q r,
            oq = Some q /\ osz = Some (TrialRecord.size r) /\ trials !! q = Some r
            /\ (TrialRecord.score r
                <= relaxed U thresholdMultiplier (retries calls) threshold)%Q
            /\ TrialRecord.size r < inputSize).
Proof.
  induction fuel as [|fuel IH]; intros input threshold m start quiet verbose prior
    priorTrials st oq inputSize osz trials st' H; rewrite webpRecompress_unfold;
    destruct (attempt U C _ _ _ _ _ _ _ _ _ _) as [[o1 t1 st1|th1 q1 t1 st1]|] eqn:Ea;
    try discriminate;
    pose proof (attempt_consistent_for U C f frame same _ _ _ _ _ _ _ _ _ _ _ H Ea) as Ha;
    cbn [attempt_consistent] in Ha.
  - intros [= -> <- <-].
    destruct (attempt_converts_once _ _ _ _ _ _ _ _ _ _ _ Ea) as (H0 & H1 & calls & Hl & Hn).
    { intros o t s [= <- _ _]. eauto. }
    exists calls. unfold retries. rewrite Hn. cbn [Nat.pred relaxed].
    split; [exact Hl|]. split; [lia|]. split; [exact H0|]. split; [exact H1|].
    intros Hcontract. exact (Ha Hcontract oq inputSize osz eq_refl).
  - intros [= -> <- <-].
    destruct (attempt_converts_once _ _ _ _ _ _ _ _ _ _ _ Ea) as (H0 & H1 & calls & Hl & Hn).
    { intros o t s [= <- _ _]. eauto. }
    exists calls. unfold retries. rewrite Hn. cbn [Nat.pred relaxed].
    split; [exact Hl|]. split; [lia|]. split; [exact H0|]. split; [exact H1|].
    intros Hcontract. exact (Ha Hcontract oq inputSize osz eq_refl).
  - intros Hr. destruct Ha as [Hc ->].
    destruct (attempt_converts_once _ _ _ _ _ _ _ _ _ _ _ Ea) as (_ & _ & calls & Hl & Hn).
    { intros o t s [=]. }
    destruct (IH _ _ _ _ _ _ _ (Some t1) _ _ _ _ _ _ Hc Hr)
      as (calls' & Hl' & Hn' & Hrest).
    exists (calls ++ calls'). cbn [attempt_st] in Hl.
    split; [rewrite Hl', Hl, <- app_assoc; reflexivity|].
    assert (Hk : retries (calls ++ calls') = S (retries calls')).
    { unfold retries. rewrite List.filter_app, length_app, Hn. cbn [Nat.add Nat.pred]. lia. }
    rewrite Hk. cbn [relaxed].
    split; [rewrite List.filter_app, length_app; lia|]. exact Hrest.
Qed.

End CandidateDriver.


